(** * Web terminal: path resolver, virtual filesystem store, command dispatcher

    A shallow embedding of [src/fileSystem.ts] (getItemAtPath, resolvePath,
    createFile, createDirectory, createInitialFileSystem) and of the command
    dispatcher [executeCommand] with the builtin handlers cd, cat, mkdir,
    touch, uname, which, head, tail and grep; further of the handlers file
    and wc, of parseCommand, formatPrompt and getCommandSuggestions, and of
    the event handlers of the terminal component.

    Modelling conventions.
    - A JavaScript string is a Rocq [string]; one character stands for one
      UTF-16 code unit (the embedding covers code units below 256), so
      [String.length] is the [.length] of the source.
    - A JavaScript object used as a dictionary ([children]) is a
      [gmap string _]; only own properties are modelled (keys inherited from
      [Object.prototype], such as [constructor] or [__proto__], are outside
      the model) and enumeration order is not (no definition below
      enumerates a dictionary).  The inherited names are listed as
      [inheritedKeys]; the further properties that depend on what a lookup of
      such a name reads, or on the assignment to [__proto__], carry a
      hypothesis that excludes them.
    - The store is a tree without shared nodes (it is built by an object
      literal and extended with fresh objects only), so the in-place
      assignment [parent.children[k] = v] through the reference returned by
      [getItemAtPath] is the functional update of the tree at that path.
    - [fileSystem] always has the key ['/']; the model passes the node stored
      under that key.
    - [new Date()] is a parameter [now]; reads of the clock within one command
      are identified.
    - Numbers that reach [Array.prototype.slice] are integers; they are
      modelled in [Z] (rounding of huge literals to doubles is monotone and
      cannot move a value across an array length). *)

From Stdlib Require Import ZArith String Ascii List Lia Bool DecimalString.
From stdpp Require Import base option gmap strings.
Import ListNotations.

#[local] Open Scope string_scope.
#[local] Set Warnings "-register-all".

(** ** JavaScript string and array primitives used by the source *)

Module Js.

(** Truthiness of a string: the empty string is falsy. *)
Definition truthy (s : string) : bool := negb (String.eqb s "").

(** [o || d] where [o] is a possibly undefined string. *)
Definition strOr (o : option string) (d : string) : string :=
  match o with
  | Some s => if truthy s then s else d
  | None => d
  end.

(** [s.startsWith(p)] *)
Definition startsWith (s p : string) : bool := String.prefix p s.

(** [s.split(c)] for a one-character separator [c]. *)
Fixpoint split (c : ascii) (s : string) : list string :=
  match s with
  | EmptyString => [""]
  | String a s' =>
      if Ascii.eqb a c then "" :: split c s'
      else match split c s' with
           | h :: t => String a h :: t
           | [] => [String a ""]
           end
  end.

(** [l.join(sep)] *)
Definition join (sep : string) (l : list string) : string := String.concat sep l.

(** [l.filter(Boolean)] on an array of strings. *)
Definition filterBoolean (l : list string) : list string := List.filter truthy l.

(** [l.pop()] (the popped element is never used by the source). *)
Definition pop (l : list string) : list string := removelast l.

(** [l.push(x)] *)
Definition push (l : list string) (x : string) : list string := l ++ [x].

(** [s.includes(p)] *)
Fixpoint includes (s p : string) : bool :=
  String.prefix p s ||
  match s with
  | EmptyString => false
  | String _ s' => includes s' p
  end.

(** [s.replace(/\/$/, '')]: drops one slash at the very end, if any. *)
Fixpoint stripTrailingSlash (s : string) : string :=
  match s with
  | EmptyString => ""
  | String a EmptyString => if Ascii.eqb a "/" then "" else s
  | String a s' => String a (stripTrailingSlash s')
  end.

(** [s.lastIndexOf(c)], -1 when [c] does not occur. *)
Fixpoint lastIndexOf (s : string) (c : ascii) : Z :=
  match s with
  | EmptyString => (-1)%Z
  | String a s' =>
      let r := lastIndexOf s' c in
      if (0 <=? r)%Z then (r + 1)%Z
      else if Ascii.eqb a c then 0%Z else (-1)%Z
  end.

(** Clamping of a [substring] index into [0 .. len]. *)
Definition clampIndex (len : nat) (i : Z) : nat :=
  Z.to_nat (Z.min (Z.max i 0) (Z.of_nat len)).

(** [s.substring(a, b)]: both indices clamped, swapped when [a > b]. *)
Definition substring (s : string) (a b : Z) : string :=
  let a' := clampIndex (String.length s) a in
  let b' := clampIndex (String.length s) b in
  String.substring (Nat.min a' b') (Nat.max a' b' - Nat.min a' b') s.

(** [s.substring(a)] *)
Definition substringFrom (s : string) (a : Z) : string :=
  substring s a (Z.of_nat (String.length s)).

(** Relative index of [Array.prototype.slice]. *)
Definition relIndex (len : nat) (i : Z) : nat :=
  if (i <? 0)%Z then Z.to_nat (Z.max (Z.of_nat len + i) 0)
  else Z.to_nat (Z.min i (Z.of_nat len)).

(** [l.slice(start, stop)] *)
Definition slice {A : Type} (l : list A) (start stop : Z) : list A :=
  let k := relIndex (List.length l) start in
  let final := relIndex (List.length l) stop in
  firstn (final - k) (skipn k l).

(** [l.slice(start)] *)
Definition sliceFrom {A : Type} (l : list A) (start : Z) : list A :=
  slice l start (Z.of_nat (List.length l)).

(** White space skipped by [parseInt] (code units below 256). *)
Definition isWhiteSpace (a : ascii) : bool :=
  let n := nat_of_ascii a in
  Nat.eqb n 9 || Nat.eqb n 10 || Nat.eqb n 11 || Nat.eqb n 12 ||
  Nat.eqb n 13 || Nat.eqb n 32 || Nat.eqb n 160.

Fixpoint trimStart (s : string) : string :=
  match s with
  | EmptyString => ""
  | String a s' => if isWhiteSpace a then trimStart s' else s
  end.

(** Value of a digit in radix up to 36. *)
Definition digitValue (a : ascii) : option Z :=
  let n := Z.of_nat (nat_of_ascii a) in
  if (48 <=? n)%Z && (n <=? 57)%Z then Some (n - 48)%Z
  else if (97 <=? n)%Z && (n <=? 122)%Z then Some (n - 87)%Z
  else if (65 <=? n)%Z && (n <=? 90)%Z then Some (n - 55)%Z
  else None.

(** Longest prefix of digits of the radix; [None] when there is none. *)
Fixpoint parseDigits (radix : Z) (s : string) (acc : option Z) : option Z :=
  match s with
  | EmptyString => acc
  | String a s' =>
      match digitValue a with
      | Some d =>
          if (d <? radix)%Z
          then parseDigits radix s' (Some (radix * default 0%Z acc + d)%Z)
          else acc
      | None => acc
      end
  end.

(** [parseInt(s)] without a radix argument; [None] is NaN. *)
Definition parseInt (s : string) : option Z :=
  let s1 := trimStart s in
  let '(sign, s2) :=
    match s1 with
    | String "-" r => ((-1)%Z, r)
    | String "+" r => (1%Z, r)
    | _ => (1%Z, s1)
    end in
  let '(radix, s3) :=
    match s2 with
    | String "0" (String "x" r) => (16%Z, r)
    | String "0" (String "X" r) => (16%Z, r)
    | _ => (10%Z, s2)
    end in
  match parseDigits radix s3 None with
  | Some v => Some (sign * v)%Z
  | None => None
  end.

(** [n || d] for a number: NaN and zero are falsy. *)
Definition numOr (o : option Z) (d : Z) : Z :=
  match o with
  | Some v => if (v =? 0)%Z then d else v
  | None => d
  end.

End Js.

(** The newline string. *)
Definition nl : string := String (ascii_of_nat 10) "".
(** The tab string. *)
Definition tab : string := String (ascii_of_nat 9) "".
(** The double quote string. *)
Definition dq : string := String (ascii_of_nat 34) "".

(** ** types.ts *)

Definition Date := Z.

Inductive ItemType := file | directory.

Definition ItemType_eqb (a b : ItemType) : bool :=
  match a, b with
  | file, file | directory, directory => true
  | _, _ => false
  end.

Inductive FileSystemItem := mkItem {
  name : string;
  type : ItemType;
  content : option string;
  children : option (gmap string FileSystemItem);
  permissions : string;
  owner : string;
  group : string;
  size : nat;
  modified : Date }.

(** The node stored under the key ['/'] of the [fileSystem] record. *)
Definition FileSystem := FileSystemItem.

Record CommandResult := mkResult {
  output : string;
  error : option string;
  exitCode : nat }.

(** ** fileSystem.ts *)

Definition mkDir (n o g : string) (now : Date)
    (ch : list (string * FileSystemItem)) : FileSystemItem :=
  mkItem n directory None (Some (list_to_map ch)) "drwxr-xr-x" o g 4096 now.

Definition mkFile (n perms o g : string) (sz : nat) (now : Date)
    (c : string) : FileSystemItem :=
  mkItem n file (Some c) None perms o g sz now.

Definition createInitialFileSystem (now : Date) : FileSystem :=
  mkDir "/" "root" "root" now
    [ ("home", mkDir "home" "root" "root" now
        [ ("user", mkDir "user" "user" "user" now
            [ ("documents", mkDir "documents" "user" "user" now
                [ ("readme.txt", mkFile "readme.txt" "-rw-r--r--" "user" "user" 142 now
                     (Js.join nl
                        [ "Welcome to the Web Terminal!"; "";
                          "This is a simulated Linux environment.";
                          "Try commands like: ls, cd, pwd, cat, mkdir, touch, echo";
                          ""; "Have fun exploring!" ]));
                  ("project.md", mkFile "project.md" "-rw-r--r--" "user" "user" 203 now
                     (Js.join nl
                        [ "# My Project"; "";
                          "This is a markdown file with project documentation.";
                          ""; "## Features"; "- Terminal simulation";
                          "- File system operations"; "- Command history"; "";
                          "## Usage";
                          "Use standard Linux commands to navigate and interact with the file system." ])) ]);
              ("scripts", mkDir "scripts" "user" "user" now
                [ ("hello.sh", mkFile "hello.sh" "-rwxr-xr-x" "user" "user" 75 now
                     (Js.join nl
                        [ "#!/bin/bash";
                          "echo " ++ dq ++ "Hello, World!" ++ dq;
                          "echo " ++ dq ++ "Welcome to the terminal simulator!" ++ dq ])) ]) ]) ]);
      ("etc", mkDir "etc" "root" "root" now
        [ ("hosts", mkFile "hosts" "-rw-r--r--" "root" "root" 67 now
             ("127.0.0.1" ++ tab ++ "localhost" ++ nl ++
              "::1" ++ tab ++ tab ++ "localhost ip6-localhost ip6-loopback" ++ nl)) ]);
      ("var", mkDir "var" "root" "root" now
        [ ("log", mkDir "log" "root" "root" now []) ]) ].

(** The segments walked by [getItemAtPath]: [path.split('/').filter(Boolean)]. *)
Definition pathParts (path : string) : list string :=
  Js.filterBoolean (Js.split "/" path).

(** The loop of [getItemAtPath]: one step per segment, [None] as soon as the
    current node has no [children] or no child of that name. *)
Fixpoint walk (current : FileSystemItem) (parts : list string)
    : option FileSystemItem :=
  match parts with
  | [] => Some current
  | part :: rest =>
      match children current with
      | None => None
      | Some ch =>
          match ch !! part with
          | None => None
          | Some child => walk child rest
          end
      end
  end.

Definition getItemAtPath (fileSystem : FileSystem) (path : string)
    : option FileSystemItem :=
  if String.eqb path "/" then Some fileSystem
  else walk fileSystem (pathParts path).

Definition resolveStep (resolvedParts : list string) (part : string)
    : list string :=
  if String.eqb part ".." then Js.pop resolvedParts
  else if negb (String.eqb part ".") && negb (String.eqb part "")
       then Js.push resolvedParts part
       else resolvedParts.

(** ['/' + parts.join('/')], or ['/'] for the empty stack. *)
Definition renderParts (parts : list string) : string :=
  if Nat.eqb (List.length parts) 0 then "/" else "/" ++ Js.join "/" parts.

Definition resolvePath (currentDir path : string) : string :=
  if Js.startsWith path "/" then
    if String.eqb path "/" then "/" else Js.stripTrailingSlash path
  else if String.eqb path "." then currentDir
  else if String.eqb path ".." then
    renderParts (Js.pop (pathParts currentDir))
  else
    let parts := Js.split "/" path in
    let resolvedParts :=
      if String.eqb currentDir "/" then [] else pathParts currentDir in
    renderParts (fold_left resolveStep parts resolvedParts).

(** [path.substring(0, path.lastIndexOf('/')) || '/'] *)
Definition parentPathOf (path : string) : string :=
  Js.strOr (Some (Js.substring path 0 (Js.lastIndexOf path "/"))) "/".

(** [path.substring(path.lastIndexOf('/') + 1)] *)
Definition leafNameOf (path : string) : string :=
  Js.substringFrom path (Js.lastIndexOf path "/" + 1).

(** The node of the tree reached by [parts] replaced by its image under [f];
    this is what an assignment through the reference obtained by walking
    [parts] does to the tree. *)
Fixpoint updateAt (current : FileSystemItem) (parts : list string)
    (f : FileSystemItem -> FileSystemItem) : FileSystemItem :=
  match parts with
  | [] => f current
  | part :: rest =>
      match children current with
      | None => current
      | Some ch =>
          match ch !! part with
          | None => current
          | Some child =>
              mkItem (name current) (type current) (content current)
                     (Some (<[part := updateAt child rest f]> ch))
                     (permissions current) (owner current) (group current)
                     (size current) (modified current)
          end
      end
  end.

(** [parent.children[k] = item] *)
Definition setChild (k : string) (item : FileSystemItem)
    (parent : FileSystemItem) : FileSystemItem :=
  match children parent with
  | None => parent
  | Some ch =>
      mkItem (name parent) (type parent) (content parent)
             (Some (<[k := item]> ch))
             (permissions parent) (owner parent) (group parent)
             (size parent) (modified parent)
  end.

(** The segments that lead to the node [getItemAtPath] returns. *)
Definition lookupParts (path : string) : list string :=
  if String.eqb path "/" then [] else pathParts path.

Definition newFile (fileName content : string) (now : Date) : FileSystemItem :=
  mkItem fileName file (Some content) None "-rw-r--r--" "user" "user"
         (String.length content) now.

Definition newDirectory (dirName : string) (now : Date) : FileSystemItem :=
  mkItem dirName directory None (Some ∅) "drwxr-xr-x" "user" "user" 4096 now.

Definition createFile (now : Date) (fileSystem : FileSystem) (path : string)
    (content : string) : bool * FileSystem :=
  let parentPath := parentPathOf path in
  let fileName := leafNameOf path in
  match getItemAtPath fileSystem parentPath with
  | None => (false, fileSystem)
  | Some parent =>
      if negb (ItemType_eqb (type parent) directory) then (false, fileSystem)
      else match children parent with
           | None => (false, fileSystem)
           | Some _ =>
               (true, updateAt fileSystem (lookupParts parentPath)
                               (setChild fileName (newFile fileName content now)))
           end
  end.

Definition createDirectory (now : Date) (fileSystem : FileSystem)
    (path : string) : bool * FileSystem :=
  let parentPath := parentPathOf path in
  let dirName := leafNameOf path in
  match getItemAtPath fileSystem parentPath with
  | None => (false, fileSystem)
  | Some parent =>
      if negb (ItemType_eqb (type parent) directory) then (false, fileSystem)
      else match children parent with
           | None => (false, fileSystem)
           | Some _ =>
               (true, updateAt fileSystem (lookupParts parentPath)
                               (setChild dirName (newDirectory dirName now)))
           end
  end.

(** ** commands.ts *)

Definition okResult (out : string) : CommandResult := mkResult out None 0.
Definition errResult (msg : string) (code : nat) : CommandResult :=
  mkResult "" (Some msg) code.

(** [args[i]], undefined past the end. *)
Definition arg (args : list string) (i : nat) : option string := nth_error args i.

(** [item.content || ''] *)
Definition contentOf (item : FileSystemItem) : string := Js.strOr (content item) "".

Definition handleCd (args : list string) (currentDir : string)
    (fileSystem : FileSystem) : CommandResult :=
  let targetPath := Js.strOr (arg args 0) "/home/user" in
  let resolvedPath := resolvePath currentDir targetPath in
  match getItemAtPath fileSystem resolvedPath with
  | None =>
      errResult ("bash: cd: " ++ targetPath ++ ": No such file or directory") 1
  | Some item =>
      if negb (ItemType_eqb (type item) directory)
      then errResult ("bash: cd: " ++ targetPath ++ ": Not a directory") 1
      else okResult ("__CD__" ++ resolvedPath)
  end.

Fixpoint catLoop (args : list string) (currentDir : string)
    (fileSystem : FileSystem) (results : list string) : CommandResult :=
  match args with
  | [] => okResult (Js.join nl results)
  | filePath :: rest =>
      match getItemAtPath fileSystem (resolvePath currentDir filePath) with
      | None =>
          errResult ("cat: " ++ filePath ++ ": No such file or directory") 1
      | Some item =>
          if negb (ItemType_eqb (type item) file)
          then errResult ("cat: " ++ filePath ++ ": Is a directory") 1
          else catLoop rest currentDir fileSystem (results ++ [contentOf item])
      end
  end.

Definition handleCat (args : list string) (currentDir : string)
    (fileSystem : FileSystem) : CommandResult :=
  if Nat.eqb (List.length args) 0
  then errResult "cat: missing file operand" 1
  else catLoop args currentDir fileSystem [].

Fixpoint mkdirLoop (now : Date) (args : list string) (currentDir : string)
    (fileSystem : FileSystem) : CommandResult * FileSystem :=
  match args with
  | [] => (okResult "", fileSystem)
  | dirPath :: rest =>
      let '(created, fileSystem') :=
        createDirectory now fileSystem (resolvePath currentDir dirPath) in
      if created then mkdirLoop now rest currentDir fileSystem'
      else (errResult ("mkdir: cannot create directory '" ++ dirPath ++
                       "': File exists or parent directory doesn't exist") 1,
            fileSystem')
  end.

Definition handleMkdir (now : Date) (args : list string) (currentDir : string)
    (fileSystem : FileSystem) : CommandResult * FileSystem :=
  if Nat.eqb (List.length args) 0
  then (errResult "mkdir: missing operand" 1, fileSystem)
  else mkdirLoop now args currentDir fileSystem.

Fixpoint touchLoop (now : Date) (args : list string) (currentDir : string)
    (fileSystem : FileSystem) : CommandResult * FileSystem :=
  match args with
  | [] => (okResult "", fileSystem)
  | filePath :: rest =>
      let '(created, fileSystem') :=
        createFile now fileSystem (resolvePath currentDir filePath) "" in
      if created then touchLoop now rest currentDir fileSystem'
      else (errResult ("touch: cannot touch '" ++ filePath ++
                       "': No such file or directory") 1,
            fileSystem')
  end.

Definition handleTouch (now : Date) (args : list string) (currentDir : string)
    (fileSystem : FileSystem) : CommandResult * FileSystem :=
  if Nat.eqb (List.length args) 0
  then (errResult "touch: missing file operand" 1, fileSystem)
  else touchLoop now args currentDir fileSystem.

(** [args.includes(x)] *)
Definition argsInclude (args : list string) (x : string) : bool :=
  existsb (String.eqb x) args.

Definition handleUname (args : list string) : CommandResult :=
  if argsInclude args "-a"
  then okResult "Linux webterminal 5.15.0 #1 SMP Web Terminal Simulator x86_64 GNU/Linux"
  else okResult "Linux".

Definition whichCommands : list string :=
  [ "ls"; "cd"; "pwd"; "cat"; "echo"; "mkdir"; "touch"; "whoami"; "date"; "clear";
    "help"; "uname"; "which"; "file"; "head"; "tail"; "wc"; "grep";
    "hello"; "calc"; "weather"; "joke"; "cowsay"; "fortune"; "matrix"; "ascii";
    "color"; "timer" ].

Definition handleWhich (args : list string) : CommandResult :=
  match args with
  | [] => errResult "which: missing argument" 1
  | command :: _ =>
      if argsInclude whichCommands command
      then okResult ("/bin/" ++ command)
      else errResult ("which: no " ++ command ++ " in (/bin:/usr/bin)") 1
  end.

(** The option parsing shared by head and tail: the line count and the
    remaining arguments. *)
Definition lineCountArgs (args : list string) : Z * list string :=
  match arg args 0, arg args 1 with
  | Some a0, Some a1 =>
      if String.eqb a0 "-n" && Js.truthy a1
      then (Js.numOr (Js.parseInt a1) 10, skipn 2 args)
      else (10%Z, args)
  | _, _ => (10%Z, args)
  end.

Definition handleHead (args : list string) (currentDir : string)
    (fileSystem : FileSystem) : CommandResult :=
  let '(lines, fileArgs) := lineCountArgs args in
  match fileArgs with
  | [] => errResult "head: missing file operand" 1
  | filePath :: _ =>
      match getItemAtPath fileSystem (resolvePath currentDir filePath) with
      | None =>
          errResult ("head: " ++ filePath ++ ": No such file or directory") 1
      | Some item =>
          if negb (ItemType_eqb (type item) file)
          then errResult ("head: " ++ filePath ++ ": Is a directory") 1
          else
            let contentLines := Js.split (ascii_of_nat 10) (contentOf item) in
            okResult (Js.join nl (Js.slice contentLines 0 lines))
      end
  end.

Definition handleTail (args : list string) (currentDir : string)
    (fileSystem : FileSystem) : CommandResult :=
  let '(lines, fileArgs) := lineCountArgs args in
  match fileArgs with
  | [] => errResult "tail: missing file operand" 1
  | filePath :: _ =>
      match getItemAtPath fileSystem (resolvePath currentDir filePath) with
      | None =>
          errResult ("tail: " ++ filePath ++ ": No such file or directory") 1
      | Some item =>
          if negb (ItemType_eqb (type item) file)
          then errResult ("tail: " ++ filePath ++ ": Is a directory") 1
          else
            let contentLines := Js.split (ascii_of_nat 10) (contentOf item) in
            okResult (Js.join nl (Js.sliceFrom contentLines (- lines)))
      end
  end.

Definition handleGrep (args : list string) (currentDir : string)
    (fileSystem : FileSystem) : CommandResult :=
  match args with
  | pattern :: filePath :: _ =>
      match getItemAtPath fileSystem (resolvePath currentDir filePath) with
      | None =>
          errResult ("grep: " ++ filePath ++ ": No such file or directory") 1
      | Some item =>
          if negb (ItemType_eqb (type item) file)
          then errResult ("grep: " ++ filePath ++ ": Is a directory") 1
          else
            let lines := Js.split (ascii_of_nat 10) (contentOf item) in
            let matchingLines :=
              List.filter (fun line => Js.includes line pattern) lines in
            mkResult (Js.join nl matchingLines) None
                     (if Nat.ltb 0 (List.length matchingLines) then 0 else 1)
      end
  | _ => errResult "grep: missing pattern or file operand" 1
  end.

(** The handlers that no property below depends on (ls, help, file, wc and
    the custom commands) and the rendering of the clock by [date] are taken
    as given.  None of them calls [createFile] or [createDirectory], so each
    yields a result only. *)
Record Handlers := mkHandlers {
  dateToString : Date -> string;
  handleLs : list string -> string -> FileSystem -> CommandResult;
  handleHelp : CommandResult;
  handleFile : list string -> string -> FileSystem -> CommandResult;
  handleWc : list string -> string -> FileSystem -> CommandResult;
  handleHello : list string -> CommandResult;
  handleCalc : list string -> CommandResult;
  handleWeather : list string -> CommandResult;
  handleJoke : CommandResult;
  handleCowsay : list string -> CommandResult;
  handleFortune : CommandResult;
  handleMatrix : CommandResult;
  handleAscii : list string -> CommandResult;
  handleColor : list string -> CommandResult;
  handleTimer : list string -> CommandResult }.

Section Dispatcher.

Context (H : Handlers) (now : Date).

Definition executeCommand (command : string) (args : list string)
    (currentDir : string) (fileSystem : FileSystem)
    : CommandResult * FileSystem :=
  let pure (r : CommandResult) := (r, fileSystem) in
  if String.eqb command "ls" then pure (handleLs H args currentDir fileSystem)
  else if String.eqb command "cd" then pure (handleCd args currentDir fileSystem)
  else if String.eqb command "pwd" then pure (okResult currentDir)
  else if String.eqb command "cat" then pure (handleCat args currentDir fileSystem)
  else if String.eqb command "echo" then pure (okResult (Js.join " " args))
  else if String.eqb command "mkdir" then handleMkdir now args currentDir fileSystem
  else if String.eqb command "touch" then handleTouch now args currentDir fileSystem
  else if String.eqb command "whoami" then pure (okResult "user")
  else if String.eqb command "date" then pure (okResult (dateToString H now))
  else if String.eqb command "clear" then pure (okResult "__CLEAR__")
  else if String.eqb command "help" then pure (handleHelp H)
  else if String.eqb command "uname" then pure (handleUname args)
  else if String.eqb command "history"
       then pure (okResult "Command history not available in this context")
  else if String.eqb command "which" then pure (handleWhich args)
  else if String.eqb command "file" then pure (handleFile H args currentDir fileSystem)
  else if String.eqb command "head" then pure (handleHead args currentDir fileSystem)
  else if String.eqb command "tail" then pure (handleTail args currentDir fileSystem)
  else if String.eqb command "wc" then pure (handleWc H args currentDir fileSystem)
  else if String.eqb command "grep" then pure (handleGrep args currentDir fileSystem)
  else if String.eqb command "hello" then pure (handleHello H args)
  else if String.eqb command "calc" then pure (handleCalc H args)
  else if String.eqb command "weather" then pure (handleWeather H args)
  else if String.eqb command "joke" then pure (handleJoke H)
  else if String.eqb command "cowsay" then pure (handleCowsay H args)
  else if String.eqb command "fortune" then pure (handleFortune H)
  else if String.eqb command "matrix" then pure (handleMatrix H)
  else if String.eqb command "ascii" then pure (handleAscii H args)
  else if String.eqb command "color" then pure (handleColor H args)
  else if String.eqb command "timer" then pure (handleTimer H args)
  else pure (errResult ("bash: " ++ command ++ ": command not found") 127).

End Dispatcher.

(** The case labels of the [switch] in [executeCommand]. *)
Definition dispatchTable : list string :=
  [ "ls"; "cd"; "pwd"; "cat"; "echo"; "mkdir"; "touch"; "whoami"; "date";
    "clear"; "help"; "uname"; "history"; "which"; "file"; "head"; "tail"; "wc";
    "grep"; "hello"; "calc"; "weather"; "joke"; "cowsay"; "fortune"; "matrix";
    "ascii"; "color"; "timer" ].

(** An instance of the handlers taken as given, for running the dispatcher on
    command lines that do not reach them. *)
Definition plainHandlers : Handlers :=
  {| dateToString := fun _ => "";
     handleLs := fun _ _ _ => okResult "";
     handleHelp := okResult "";
     handleFile := fun _ _ _ => okResult "";
     handleWc := fun _ _ _ => okResult "";
     handleHello := fun _ => okResult "";
     handleCalc := fun _ => okResult "";
     handleWeather := fun _ => okResult "";
     handleJoke := okResult "";
     handleCowsay := fun _ => okResult "";
     handleFortune := okResult "";
     handleMatrix := okResult "";
     handleAscii := fun _ => okResult "";
     handleColor := fun _ => okResult "";
     handleTimer := fun _ => okResult "" |}.

(** The initial store at time zero and the session's home directory. *)
Definition fs0 : FileSystem := createInitialFileSystem 0%Z.
Definition run := executeCommand plainHandlers 0%Z.

(** ** Predicates used to state the properties *)

(** [occurs c s]: the character [c] occurs in [s]. *)
Fixpoint occurs (c : ascii) (s : string) : bool :=
  match s with
  | EmptyString => false
  | String a s' => Ascii.eqb a c || occurs c s'
  end.

(** [endsWith s c]: the last character of [s] is [c]. *)
Fixpoint endsWith (s : string) (c : ascii) : bool :=
  match s with
  | EmptyString => false
  | String a EmptyString => Ascii.eqb a c
  | String _ s' => endsWith s' c
  end.

(** [endsWithDoubleSlash s]: the last two characters of [s] are slashes. *)
Fixpoint endsWithDoubleSlash (s : string) : bool :=
  match s with
  | EmptyString => false
  | String a s' =>
      match s' with
      | String b EmptyString => Ascii.eqb a "/" && Ascii.eqb b "/"
      | _ => endsWithDoubleSlash s'
      end
  end.

(** A current directory in the form the session keeps it: it starts with a
    slash and, unless it is the root, does not end with one. *)
Definition absoluteDir (d : string) : bool :=
  Js.startsWith d "/" && (String.eqb d "/" || negb (endsWith d "/")).

(** A segment of a normalized path: not empty, not [.], not [..]. *)
Definition properSegment (s : string) : bool :=
  Js.truthy s && negb (String.eqb s ".") && negb (String.eqb s "..").

(** A normalized absolute path: the root, or a slash followed by proper
    segments separated by single slashes. *)
Definition normalized (s : string) : bool :=
  match s with
  | EmptyString => false
  | String a rest =>
      Ascii.eqb a "/" &&
      (String.eqb rest "" || forallb properSegment (Js.split "/" rest))
  end.

(** A segment produced by splitting on slashes and dropping empty pieces. *)
Definition plainSegment (x : string) : Prop :=
  x <> "" /\ occurs "/" x = false.

(** A plain segment that is neither [.] nor [..]. *)
Definition cleanSegment (x : string) : Prop :=
  properSegment x = true /\ occurs "/" x = false.

(** [p] occurs in [s] as a literal substring. *)
Definition isSubstring (p s : string) : Prop :=
  exists pre post : string, s = (pre ++ p ++ post)%string.

(** A node that [createFile] and [createDirectory] accept as a parent: its
    type is [directory] and it carries a [children] dictionary. *)
Definition isDirectoryNode (item : FileSystemItem) : bool :=
  ItemType_eqb (type item) directory &&
  match children item with Some _ => true | None => false end.

(** [path] looks up to an existing directory node. *)
Definition directoryAt (fileSystem : FileSystem) (path : string) : bool :=
  match getItemAtPath fileSystem path with
  | Some item => isDirectoryNode item
  | None => false
  end.

(** ** Further JavaScript primitives *)

Module JsText.

(** [s.trimEnd()] *)
Fixpoint trimEnd (s : string) : string :=
  match s with
  | EmptyString => ""
  | String a s' =>
      let r := trimEnd s' in
      if Js.isWhiteSpace a && String.eqb r "" then "" else String a r
  end.

(** [s.trim()] *)
Definition trim (s : string) : string := trimEnd (Js.trimStart s).

(** The pieces between maximal runs of white space; [skipping] holds while
    the scan is inside a run. *)
Fixpoint splitWsAux (skipping : bool) (s : string) : list string :=
  match s with
  | EmptyString => [""]
  | String a s' =>
      if Js.isWhiteSpace a then
        if skipping then splitWsAux true s' else "" :: splitWsAux true s'
      else match splitWsAux false s' with
           | h :: t => String a h :: t
           | [] => [String a ""]
           end
  end.

(** [s.split(/\s+/)] *)
Definition splitWhitespace (s : string) : list string := splitWsAux false s.

(** Lower case of one code unit below 256: the letters A to Z and the
    Latin-1 capitals other than the multiplication sign move up by 32. *)
Definition toLowerCaseChar (a : ascii) : ascii :=
  let n := nat_of_ascii a in
  if (Nat.leb 65 n && Nat.leb n 90) ||
     (Nat.leb 192 n && Nat.leb n 222 && negb (Nat.eqb n 215))
  then ascii_of_nat (n + 32) else a.

(** [s.toLowerCase()] *)
Fixpoint toLowerCase (s : string) : string :=
  match s with
  | EmptyString => ""
  | String a s' => String (toLowerCaseChar a) (toLowerCase s')
  end.

(** [n.toString()] for a non-negative integer. *)
Definition numToString (n : nat) : string :=
  NilEmpty.string_of_uint (Nat.to_uint n).

(** [' '.repeat(n)] *)
Fixpoint spaces (n : nat) : string :=
  match n with
  | O => ""
  | S n' => String " " (spaces n')
  end.

(** [s.padStart(n)] *)
Definition padStart (s : string) (n : nat) : string :=
  (spaces (n - String.length s) ++ s)%string.

End JsText.

(** ** utils.ts *)

Definition parseCommand (input : string) : string * list string :=
  let trimmed := JsText.trim input in
  if negb (Js.truthy trimmed) then ("", [])
  else
    let parts := JsText.splitWhitespace trimmed in
    (hd "" parts, Js.sliceFrom parts 1).

Definition formatPrompt (currentDir : string) : string :=
  let user := "user" in
  let hostname := "webterminal" in
  let displayDir := if String.eqb currentDir "/home/user" then "~" else currentDir in
  (user ++ "@" ++ hostname ++ ":" ++ displayDir ++ "$ ")%string.

Definition suggestionCommands : list string :=
  [ "ls"; "cd"; "pwd"; "cat"; "echo"; "mkdir"; "touch"; "whoami"; "date";
    "clear"; "help"; "uname"; "which"; "file"; "head"; "tail"; "wc"; "grep";
    "hello"; "calc"; "weather"; "joke"; "cowsay"; "fortune"; "matrix"; "ascii";
    "color"; "timer" ].

Definition getCommandSuggestions (input : string) : list string :=
  if negb (Js.truthy input) then suggestionCommands
  else List.filter (fun cmd => Js.startsWith cmd (JsText.toLowerCase input))
                   suggestionCommands.

(** ** commands.ts: file and wc *)

Module Builtins.

(** The line [file] prints for one operand. *)
Definition fileLine (currentDir : string) (fileSystem : FileSystem)
    (filePath : string) : string :=
  match getItemAtPath fileSystem (resolvePath currentDir filePath) with
  | None => (filePath ++ ": cannot open (No such file or directory)")%string
  | Some item =>
      if ItemType_eqb (type item) directory
      then (filePath ++ ": directory")%string
      else
        let extension :=
          JsText.toLowerCase (List.last (Js.split "." (name item)) "") in
        let type0 := "ASCII text" in
        let type1 :=
          if String.eqb extension "md" then "ASCII text (Markdown)"
          else if String.eqb extension "sh" then "Bourne-Again shell script"
          else if String.eqb extension "txt" then "ASCII text"
          else type0 in
        (filePath ++ ": " ++ type1)%string
  end.

Fixpoint fileLoop (args : list string) (currentDir : string)
    (fileSystem : FileSystem) (results : list string) : CommandResult :=
  match args with
  | [] => okResult (Js.join nl results)
  | filePath :: rest =>
      fileLoop rest currentDir fileSystem
               (Js.push results (fileLine currentDir fileSystem filePath))
  end.

Definition handleFile (args : list string) (currentDir : string)
    (fileSystem : FileSystem) : CommandResult :=
  if Nat.eqb (List.length args) 0
  then errResult "file: missing file operand" 1
  else fileLoop args currentDir fileSystem [].

Definition handleWc (args : list string) (currentDir : string)
    (fileSystem : FileSystem) : CommandResult :=
  match args with
  | [] => errResult "wc: missing file operand" 1
  | filePath :: _ =>
      match getItemAtPath fileSystem (resolvePath currentDir filePath) with
      | None => errResult ("wc: " ++ filePath ++ ": No such file or directory") 1
      | Some item =>
          if negb (ItemType_eqb (type item) file)
          then errResult ("wc: " ++ filePath ++ ": Is a directory") 1
          else
            let content := contentOf item in
            let lines := List.length (Js.split (ascii_of_nat 10) content) in
            let words :=
              List.length
                (List.filter (fun w => Nat.ltb 0 (String.length w))
                             (JsText.splitWhitespace content)) in
            let chars := String.length content in
            okResult (JsText.padStart (JsText.numToString lines) 8 ++ " " ++
                      JsText.padStart (JsText.numToString words) 7 ++ " " ++
                      JsText.padStart (JsText.numToString chars) 7 ++ " " ++
                      filePath)
      end
  end.

End Builtins.

(** ** Terminal.tsx: the state of the component and its event handlers

    Each handler runs against the state of the last render and its state
    updates are applied in the order they are issued.  [generateId] draws
    from [Math.random]; the identifiers made during one event are given as
    the sequence [genId 0], [genId 1], ...  An array read past the end yields
    [undefined]; where the source concatenates it the model has the string
    [undefined], and the one place that would store it as the input
    (ArrowDown with a history cursor below -1) is excluded by the range
    invariant proved below.  A handler that throws, or whose output is not a
    string, ends the event in the source before the later updates; the
    handlers modelled in full do neither, and the properties of a submitted
    line that depend on it are stated for the commands dispatched to them.
    The cursor blink, scrolling, focus, clipboard and export are left out. *)

Module Terminal.

Inductive OutputKind := KindCommand | KindOutput | KindError.

Record TerminalOutput := mkOutput {
  out_id : string;
  out_type : OutputKind;
  out_content : string;
  out_timestamp : Date }.

Record TerminalState := mkState {
  currentDirectory : string;
  history : list string;
  state_historyIndex : Z;
  outputs : list TerminalOutput;
  fileSystem : FileSystem }.

(** The values held by the [useState] hooks. *)
Record Component := mkComponent {
  state : TerminalState;
  currentInput : string;
  suggestions : list string;
  selectedSuggestion : Z;
  historyIndex : Z }.

Definition withOutputs (st : TerminalState) (o : list TerminalOutput)
    : TerminalState :=
  mkState (currentDirectory st) (history st) (state_historyIndex st) o
          (fileSystem st).

Definition initialComponent (genId : nat -> string) (now : Date) : Component :=
  mkComponent
    (mkState "/home/user" [] (-1)
       [ mkOutput (genId 0) KindOutput
           ("Welcome to Web Terminal v1.0.0" ++ nl ++ "Type " ++ dq ++ "help" ++
            dq ++ " to see available commands." ++ nl) now ]
       (createInitialFileSystem now))
    "" [] (-1) (-1).

(** [handleTabCompletion] *)
Definition handleTabCompletion (c : Component) : Component :=
  if Nat.eqb (List.length (suggestions c)) 0 then c
  else if Nat.eqb (List.length (suggestions c)) 1 then
    mkComponent (state c) (default "undefined" (nth_error (suggestions c) 0) ++ " ")
                [] (-1) (historyIndex c)
  else if (0 <=? selectedSuggestion c)%Z then
    mkComponent (state c)
      (default "undefined"
         (nth_error (suggestions c) (Z.to_nat (selectedSuggestion c))) ++ " ")
      [] (-1) (historyIndex c)
  else c.

Section Events.

Context (H : Handlers) (genId : nat -> string) (now : Date).

(** [executeCurrentCommand] *)
Definition executeCurrentCommand (c : Component) : Component :=
  if negb (Js.truthy (JsText.trim (currentInput c))) then c
  else
    let st := state c in
    let '(command, args) := parseCommand (currentInput c) in
    let prompt := formatPrompt (currentDirectory st) in
    let commandOutput :=
      mkOutput (genId 0) KindCommand (prompt ++ currentInput c) now in
    let newHistory := (history st ++ [currentInput c])%list in
    let '(result, fileSystem') :=
      executeCommand H now command args (currentDirectory st) (fileSystem st) in
    let out1 := (outputs st ++ [commandOutput])%list in
    let st' :=
      if String.eqb (output result) "__CLEAR__" then
        mkState (currentDirectory st) newHistory (state_historyIndex st) []
                fileSystem'
      else if Js.startsWith (output result) "__CD__" then
        mkState (Js.substringFrom (output result) 6) newHistory
                (state_historyIndex st) out1 fileSystem'
      else
        let out2 :=
          if Js.truthy (output result)
          then (out1 ++ [mkOutput (genId 1) KindOutput (output result) now])%list
          else out1 in
        let out3 :=
          match error result with
          | Some e =>
              if Js.truthy e
              then (out2 ++ [mkOutput
                               (genId (if Js.truthy (output result) then 2 else 1))
                               KindError e now])%list
              else out2
          | None => out2
          end in
        mkState (currentDirectory st) newHistory (state_historyIndex st) out3
                fileSystem' in
    mkComponent st' "" [] (-1) (-1).

(** [handleInputChange] with [e.target.value = value] *)
Definition handleInputChange (value : string) (c : Component) : Component :=
  let '(command, _) := parseCommand value in
  if Js.truthy command && negb (Js.includes value " ")
  then mkComponent (state c) value (getCommandSuggestions command) (-1) (-1)
  else mkComponent (state c) value [] (-1) (-1).

(** [handleKeyDown] with [e.key = key] and [e.ctrlKey = ctrlKey] *)
Definition handleKeyDown (key : string) (ctrlKey : bool) (c : Component)
    : Component :=
  let len := Z.of_nat (List.length (suggestions c)) in
  let hist := history (state c) in
  if String.eqb key "Enter" then executeCurrentCommand c
  else if String.eqb key "Tab" then handleTabCompletion c
  else if String.eqb key "ArrowUp" then
    if (0 <? len)%Z then
      mkComponent (state c) (currentInput c) (suggestions c)
        (if (selectedSuggestion c <=? 0)%Z then len - 1
         else selectedSuggestion c - 1)%Z
        (historyIndex c)
    else if Nat.ltb 0 (List.length hist) then
      let newIndex :=
        if (historyIndex c =? -1)%Z then (Z.of_nat (List.length hist) - 1)%Z
        else Z.max 0 (historyIndex c - 1) in
      mkComponent (state c)
        (Js.strOr (if (newIndex <? 0)%Z then None
                   else nth_error hist (Z.to_nat newIndex)) "")
        (suggestions c) (selectedSuggestion c) newIndex
    else c
  else if String.eqb key "ArrowDown" then
    if (0 <? len)%Z then
      mkComponent (state c) (currentInput c) (suggestions c)
        (if (len - 1 <=? selectedSuggestion c)%Z then 0
         else selectedSuggestion c + 1)%Z
        (historyIndex c)
    else if negb (historyIndex c =? -1)%Z then
      let newIndex := (historyIndex c + 1)%Z in
      if (Z.of_nat (List.length hist) <=? newIndex)%Z then
        mkComponent (state c) "" (suggestions c) (selectedSuggestion c) (-1)
      else
        mkComponent (state c)
          (default "undefined"
             (if (newIndex <? 0)%Z then None
              else nth_error hist (Z.to_nat newIndex)))
          (suggestions c) (selectedSuggestion c) newIndex
    else c
  else if String.eqb key "ArrowLeft" || String.eqb key "ArrowRight" then c
  else if String.eqb key "Escape" then
    mkComponent (state c) (currentInput c) [] (-1) (-1)
  else if String.eqb key "c" then
    if ctrlKey then mkComponent (state c) "" [] (-1) (-1) else c
  else if String.eqb key "l" then
    if ctrlKey
    then mkComponent (withOutputs (state c) []) (currentInput c)
                     (suggestions c) (selectedSuggestion c) (historyIndex c)
    else c
  else c.

End Events.

End Terminal.

(** ** Further predicates used to state the properties *)

(** Every character of [s] is white space. *)
Fixpoint isBlank (s : string) : bool :=
  match s with
  | EmptyString => true
  | String a s' => Js.isWhiteSpace a && isBlank s'
  end.

(** [s] ends with a character that is not white space. *)
Fixpoint endsWord (s : string) : bool :=
  match s with
  | EmptyString => false
  | String a EmptyString => negb (Js.isWhiteSpace a)
  | String _ s' => endsWord s'
  end.

(** No character of [s] is white space. *)
Fixpoint whitespaceFree (s : string) : bool :=
  match s with
  | EmptyString => true
  | String a s' => negb (Js.isWhiteSpace a) && whitespaceFree s'
  end.

(** A word of a command line: not empty and free of white space. *)
Definition isWord (s : string) : bool := Js.truthy s && whitespaceFree s.

(** Number of occurrences of the character [c] in [s]. *)
Fixpoint countChar (c : ascii) (s : string) : nat :=
  match s with
  | EmptyString => 0
  | String a s' => (if Ascii.eqb a c then 1 else 0) + countChar c s'
  end.

(** [s] starts with a character that is not white space. *)
Definition startsWord (s : string) : bool :=
  match s with
  | EmptyString => false
  | String a _ => negb (Js.isWhiteSpace a)
  end.

(** Number of maximal runs of characters that are not white space. *)
Fixpoint countWords (s : string) : nat :=
  match s with
  | EmptyString => 0
  | String a s' =>
      if Js.isWhiteSpace a then countWords s'
      else if startsWord s' then countWords s' else S (countWords s')
  end.

(** Number of strings of positive length in [l]. *)
Definition nonEmptyCount (l : list string) : nat :=
  List.length (List.filter (fun w => Nat.ltb 0 (String.length w)) l).


(** The property names every plain object inherits from
    [Object.prototype].  The dictionaries of the model hold own keys only, so
    a property that depends on what [children[name]] reads is stated for
    names outside this list, where the model reads what the source reads. *)
Definition inheritedKeys : list string :=
  [ "constructor"; "__defineGetter__"; "__defineSetter__"; "hasOwnProperty";
    "__lookupGetter__"; "__lookupSetter__"; "isPrototypeOf";
    "propertyIsEnumerable"; "toString"; "valueOf"; "__proto__";
    "toLocaleString" ].

Definition isInheritedKey (s : string) : bool :=
  existsb (String.eqb s) inheritedKeys.




(** Two nodes agree on everything but their [children]. *)
Definition sameFace (a b : FileSystemItem) : Prop :=
  name a = name b /\ type a = type b /\ content a = content b /\
  permissions a = permissions b /\ owner a = owner b /\ group a = group b /\
  size a = size b /\ modified a = modified b.

(** Two lookup results agree on everything but the [children] of the node. *)
Definition sameFaceOpt (a b : option FileSystemItem) : Prop :=
  match a, b with
  | Some x, Some y => sameFace x y
  | None, None => True
  | _, _ => False
  end.

(** [filePath] resolves to a node of type [file]. *)
Definition isFileAt (currentDir : string) (fileSystem : FileSystem)
    (filePath : string) : bool :=
  match getItemAtPath fileSystem (resolvePath currentDir filePath) with
  | Some item => ItemType_eqb (type item) file
  | None => false
  end.

(** The content of the node [filePath] resolves to (empty when there is
    none). *)
Definition contentAt (currentDir : string) (fileSystem : FileSystem)
    (filePath : string) : string :=
  match getItemAtPath fileSystem (resolvePath currentDir filePath) with
  | Some item => contentOf item
  | None => ""
  end.

(** The history cursor and the selected suggestion are in range. *)
Definition cursorsInRange (c : Terminal.Component) : Prop :=
  (-1 <= Terminal.historyIndex c <
     Z.of_nat (List.length (Terminal.history (Terminal.state c))))%Z /\
  (Terminal.selectedSuggestion c = -1 \/
   0 <= Terminal.selectedSuggestion c <
     Z.of_nat (List.length (Terminal.suggestions c)))%Z.

(** ** Facts about the string primitives *)

Module JsFacts.
Import Js.

Lemma app_cons (a : ascii) (s t : string) :
  (String a s ++ t)%string = String a (s ++ t).
Proof. reflexivity. Qed.

Lemma app_nil (t : string) : ("" ++ t)%string = t.
Proof. reflexivity. Qed.

Lemma app_empty_r (s : string) : (s ++ "")%string = s.
Proof.
  induction s as [|a s IH]; [reflexivity | now rewrite app_cons, IH].
Qed.

Lemma app_assoc (a b c : string) :
  ((a ++ b) ++ c)%string = (a ++ (b ++ c))%string.
Proof.
  induction a as [|x a IH]; [reflexivity | now rewrite !app_cons, IH].
Qed.

Lemma length_app (a b : string) :
  String.length (a ++ b) = String.length a + String.length b.
Proof.
  induction a as [|x a IH]; [reflexivity |].
  rewrite app_cons. simpl. now rewrite IH.
Qed.

Lemma truthy_true (s : string) : truthy s = true <-> s <> "".
Proof.
  unfold truthy. destruct (String.eqb_spec s ""); simpl; split;
    intros; try congruence; try discriminate.
Qed.

Lemma split_not_nil (c : ascii) (s : string) : split c s <> [].
Proof.
  induction s as [|a s IH]; simpl; [discriminate|].
  destruct (Ascii.eqb a c); [discriminate|].
  destruct (split c s); discriminate.
Qed.

Lemma split_cons_other (c a : ascii) (s : string) :
  Ascii.eqb a c = false ->
  exists h t, split c s = h :: t /\ split c (String a s) = String a h :: t.
Proof.
  intros Hac. simpl. rewrite Hac.
  destruct (split c s) as [|h t] eqn:E.
  - now apply split_not_nil in E.
  - now exists h, t.
Qed.

(** Splitting distributes over a separator in the middle. *)
Lemma split_app (c : ascii) (a b : string) :
  split c (a ++ String c b) = (split c a ++ split c b)%list.
Proof.
  induction a as [|x a IH]; rewrite ?app_cons, ?app_nil; simpl.
  - now rewrite Ascii.eqb_refl.
  - destruct (Ascii.eqb x c) eqn:E.
    + now rewrite IH.
    + rewrite IH. destruct (split c a) as [|h t] eqn:Ea.
      * now apply split_not_nil in Ea.
      * reflexivity.
Qed.

Lemma split_no_occurrence (c : ascii) (s : string) :
  occurs c s = false -> split c s = [s].
Proof.
  induction s as [|a s IH]; simpl; [reflexivity|].
  intros Ho. apply orb_false_iff in Ho as [Hac Ho].
  rewrite Hac, (IH Ho). reflexivity.
Qed.

(** No piece of a split contains the separator. *)
Lemma split_pieces (c : ascii) (s : string) :
  Forall (fun x => occurs c x = false) (split c s).
Proof.
  induction s as [|a s IH]; simpl.
  - repeat constructor.
  - destruct (Ascii.eqb a c) eqn:E.
    + constructor; [reflexivity | exact IH].
    + destruct (split c s) as [|h t].
      * repeat constructor. simpl. now rewrite E.
      * inversion IH; subst. constructor; [|assumption].
        simpl. now rewrite E.
Qed.

Lemma join_cons (sep x : string) (l : list string) :
  l <> [] -> join sep (x :: l) = (x ++ sep ++ join sep l)%string.
Proof. destruct l; [congruence | reflexivity]. Qed.

(** Joining with a one-character separator and splitting again gives the
    pieces back, when no piece contains the separator. *)
Lemma split_join (c : ascii) (l : list string) :
  l <> [] -> Forall (fun x => occurs c x = false) l ->
  split c (join (String c "") l) = l.
Proof.
  induction l as [|x l IH]; [congruence|].
  intros _ Hall. inversion Hall as [|? ? Hx Hl]; subst.
  destruct l as [|y l].
  - simpl. now apply split_no_occurrence.
  - rewrite join_cons by discriminate. rewrite app_cons, app_nil.
    rewrite split_app, (split_no_occurrence _ _ Hx), IH by (discriminate || assumption).
    reflexivity.
Qed.

Lemma occurs_app (c : ascii) (a b : string) :
  occurs c (a ++ b) = occurs c a || occurs c b.
Proof.
  induction a as [|x a IH]; [reflexivity|].
  rewrite app_cons. simpl. now rewrite IH, orb_assoc.
Qed.

(** A string in which [c] occurs splits at the last occurrence. *)
Lemma occurs_last (c : ascii) (s : string) :
  occurs c s = true ->
  exists pre leaf, s = (pre ++ String c leaf)%string /\ occurs c leaf = false.
Proof.
  induction s as [|a s IH]; simpl; [discriminate|].
  intros Ho. destruct (occurs c s) eqn:Es.
  - destruct (IH eq_refl) as (pre & leaf & -> & Hl).
    now exists (String a pre), leaf.
  - rewrite orb_false_r in Ho. apply Ascii.eqb_eq in Ho as ->.
    now exists "", s.
Qed.

Lemma lastIndexOf_none (c : ascii) (s : string) :
  occurs c s = false -> lastIndexOf s c = (-1)%Z.
Proof.
  induction s as [|a s IH]; simpl; [reflexivity|].
  intros Ho. apply orb_false_iff in Ho as [Hac Ho].
  rewrite (IH Ho), Hac. reflexivity.
Qed.

Lemma lastIndexOf_app (c : ascii) (pre leaf : string) :
  occurs c leaf = false ->
  lastIndexOf (pre ++ String c leaf) c = Z.of_nat (String.length pre).
Proof.
  intros Hl. induction pre as [|a pre IH].
  - rewrite app_nil. simpl.
    rewrite (lastIndexOf_none _ _ Hl), Ascii.eqb_refl. reflexivity.
  - rewrite app_cons. cbn [lastIndexOf]. rewrite IH.
    destruct (0 <=? Z.of_nat (String.length pre))%Z eqn:E.
    + cbn [String.length]. lia.
    + apply Z.leb_gt in E. lia.
Qed.

Lemma substring_prefix (pre x : string) :
  String.substring 0 (String.length pre) (pre ++ x) = pre.
Proof.
  induction pre as [|a pre IH]; rewrite ?app_cons, ?app_nil; simpl.
  - now destruct x.
  - now rewrite IH.
Qed.

Lemma substring_skip (pre x : string) (m : nat) :
  String.substring (String.length pre) m (pre ++ x) = String.substring 0 m x.
Proof.
  induction pre as [|a pre IH]; rewrite ?app_cons, ?app_nil; simpl;
    [reflexivity | exact IH].
Qed.

Lemma substring_all (x : string) :
  String.substring 0 (String.length x) x = x.
Proof. rewrite <- (app_empty_r x) at 2. apply substring_prefix. Qed.

Lemma js_substring_prefix (pre x : string) :
  substring (pre ++ x) 0 (Z.of_nat (String.length pre)) = pre.
Proof.
  unfold substring, clampIndex. rewrite length_app.
  replace (Z.to_nat (Z.min (Z.max 0 0) _)) with 0 by lia.
  replace (Z.to_nat (Z.min (Z.max (Z.of_nat (String.length pre)) 0) _))
    with (String.length pre) by lia.
  rewrite Nat.min_0_l, Nat.max_0_l, Nat.sub_0_r. apply substring_prefix.
Qed.

Lemma js_substringFrom_suffix (pre x : string) :
  substringFrom (pre ++ x) (Z.of_nat (String.length pre)) = x.
Proof.
  unfold substringFrom, substring, clampIndex. rewrite length_app.
  replace (Z.to_nat (Z.min (Z.max (Z.of_nat (String.length pre)) 0) _))
    with (String.length pre) by lia.
  replace (Z.to_nat (Z.min (Z.max (Z.of_nat (String.length pre + String.length x)) 0) _))
    with (String.length pre + String.length x) by lia.
  rewrite Nat.min_l, Nat.max_r by lia.
  replace (String.length pre + String.length x - String.length pre)
    with (String.length x) by lia.
  rewrite substring_skip. apply substring_all.
Qed.

Lemma js_substring_empty (s : string) : substring s 0 (-1) = "".
Proof.
  unfold substring, clampIndex.
  replace (Z.to_nat (Z.min (Z.max 0 0) _)) with 0 by lia.
  replace (Z.to_nat (Z.min (Z.max (-1) 0) _)) with 0 by lia.
  simpl. now destruct s.
Qed.

Lemma js_substringFrom_zero (s : string) : substringFrom s 0 = s.
Proof. apply (js_substringFrom_suffix "" s). Qed.

End JsFacts.

(** ** Facts about paths and the store *)

Module StoreFacts.
Import Js JsFacts.

Lemma pathParts_root : pathParts "/" = [].
Proof. reflexivity. Qed.

Lemma pathParts_empty : pathParts "" = [].
Proof. reflexivity. Qed.

Lemma pathParts_app (pre leaf : string) :
  pathParts (pre ++ String "/" leaf) = (pathParts pre ++ pathParts leaf)%list.
Proof. unfold pathParts, filterBoolean. now rewrite split_app, List.filter_app. Qed.

Lemma pathParts_segment (leaf : string) :
  occurs "/" leaf = false -> leaf <> "" -> pathParts leaf = [leaf].
Proof.
  intros Ho Hne. unfold pathParts, filterBoolean.
  rewrite (split_no_occurrence _ _ Ho). simpl.
  apply truthy_true in Hne. now rewrite Hne.
Qed.

Lemma lookupParts_pathParts (path : string) : lookupParts path = pathParts path.
Proof.
  unfold lookupParts. destruct (String.eqb_spec path "/") as [->|]; reflexivity.
Qed.

(** The special case for the root in [getItemAtPath] agrees with the walk. *)
Lemma getItemAtPath_walk (fs : FileSystem) (path : string) :
  getItemAtPath fs path = walk fs (pathParts path).
Proof.
  unfold getItemAtPath. destruct (String.eqb_spec path "/") as [->|]; reflexivity.
Qed.

(** Parent and leaf of a path that contains a slash. *)
Lemma parent_leaf_slash (pre leaf : string) :
  occurs "/" leaf = false ->
  parentPathOf (pre ++ String "/" leaf) = (if truthy pre then pre else "/") /\
  leafNameOf (pre ++ String "/" leaf) = leaf.
Proof.
  intros Hl. unfold parentPathOf, leafNameOf.
  rewrite (lastIndexOf_app _ pre leaf Hl). split.
  - now rewrite js_substring_prefix.
  - replace (Z.of_nat (String.length pre) + 1)%Z
      with (Z.of_nat (String.length (pre ++ "/"))).
    + replace (pre ++ String "/" leaf)%string with ((pre ++ "/") ++ leaf)%string.
      * apply js_substringFrom_suffix.
      * now rewrite app_assoc.
    + rewrite length_app. simpl. lia.
Qed.

(** Parent and leaf of a path without a slash. *)
Lemma parent_leaf_plain (path : string) :
  occurs "/" path = false ->
  parentPathOf path = "/" /\ leafNameOf path = path.
Proof.
  intros Ho. unfold parentPathOf, leafNameOf.
  rewrite (lastIndexOf_none _ _ Ho). split.
  - now rewrite js_substring_empty.
  - apply js_substringFrom_zero.
Qed.

Lemma leafNameOf_no_slash (path : string) : occurs "/" (leafNameOf path) = false.
Proof.
  destruct (occurs "/" path) eqn:Ho.
  - destruct (occurs_last _ _ Ho) as (pre & leaf & -> & Hl).
    now rewrite (proj2 (parent_leaf_slash pre leaf Hl)).
  - now rewrite (proj2 (parent_leaf_plain path Ho)).
Qed.

(** The segments of a path are those of its parent followed by its leaf. *)
Lemma pathParts_parent_leaf (path : string) :
  pathParts path =
  (pathParts (parentPathOf path) ++ pathParts (leafNameOf path))%list.
Proof.
  destruct (occurs "/" path) eqn:Ho.
  - destruct (occurs_last _ _ Ho) as (pre & leaf & -> & Hl).
    destruct (parent_leaf_slash pre leaf Hl) as [-> ->].
    rewrite pathParts_app. f_equal.
    destruct pre; reflexivity.
  - destruct (parent_leaf_plain path Ho) as [-> ->]. reflexivity.
Qed.

Lemma walk_app (fs : FileSystemItem) (a b : list string) :
  walk fs (a ++ b) =
  match walk fs a with Some n => walk n b | None => None end.
Proof.
  revert fs. induction a as [|x a IH]; intros fs; simpl; [reflexivity|].
  destruct (children fs) as [ch|]; [|reflexivity].
  destruct (ch !! x); [apply IH | reflexivity].
Qed.

(** Walking to an updated node finds the updated node. *)
Lemma walk_updateAt (fs : FileSystemItem) (parts : list string)
    (f : FileSystemItem -> FileSystemItem) (node : FileSystemItem) :
  walk fs parts = Some node ->
  walk (updateAt fs parts f) parts = Some (f node).
Proof.
  revert fs. induction parts as [|x parts IH]; intros fs; simpl.
  - now intros [= ->].
  - destruct (children fs) as [ch|]; [|discriminate].
    destruct (ch !! x) as [child|] eqn:E; [|discriminate].
    intros Hw. simpl. rewrite lookup_insert_eq. now apply IH.
Qed.

(** After [parent.children[k] = item], the path of the parent extended by a
    non-empty [k] leads to [item]. *)
Lemma walk_setChild (fs : FileSystemItem) (parts : list string) (k : string)
    (item parent : FileSystemItem) :
  walk fs parts = Some parent -> isDirectoryNode parent = true ->
  walk (updateAt fs parts (setChild k item)) (parts ++ [k]) = Some item.
Proof.
  intros Hw Hd. rewrite walk_app, (walk_updateAt _ _ _ _ Hw).
  unfold isDirectoryNode in Hd. apply andb_true_iff in Hd as [_ Hc].
  unfold setChild. destruct (children parent) as [ch|]; [|discriminate].
  simpl. now rewrite lookup_insert_eq.
Qed.

(** The parent itself stays a directory node. *)
Lemma setChild_directory (k : string) (item parent : FileSystemItem) :
  isDirectoryNode parent = true -> isDirectoryNode (setChild k item parent) = true.
Proof.
  unfold isDirectoryNode, setChild. intros Hd.
  destruct (children parent) as [ch|] eqn:E; simpl.
  - apply andb_true_iff in Hd as [-> _]. reflexivity.
  - now rewrite E.
Qed.

(** [createFile] in terms of the parent lookup. *)
Lemma createFile_ok (now : Date) (fs : FileSystem) (path content : string) :
  directoryAt fs (parentPathOf path) = true ->
  createFile now fs path content =
  (true, updateAt fs (pathParts (parentPathOf path))
           (setChild (leafNameOf path) (newFile (leafNameOf path) content now))).
Proof.
  unfold directoryAt, createFile, isDirectoryNode. intros Hd.
  destruct (getItemAtPath fs (parentPathOf path)) as [parent|]; [|discriminate].
  apply andb_true_iff in Hd as [Ht Hc]. rewrite Ht. simpl.
  destruct (children parent); [|discriminate].
  now rewrite lookupParts_pathParts.
Qed.

Lemma createFile_fail (now : Date) (fs : FileSystem) (path content : string) :
  directoryAt fs (parentPathOf path) = false ->
  createFile now fs path content = (false, fs).
Proof.
  unfold directoryAt, createFile, isDirectoryNode. intros Hd.
  destruct (getItemAtPath fs (parentPathOf path)) as [parent|]; [|reflexivity].
  destruct (ItemType_eqb (type parent) directory); simpl in *; [|reflexivity].
  destruct (children parent); [discriminate | reflexivity].
Qed.

Lemma createDirectory_ok (now : Date) (fs : FileSystem) (path : string) :
  directoryAt fs (parentPathOf path) = true ->
  createDirectory now fs path =
  (true, updateAt fs (pathParts (parentPathOf path))
           (setChild (leafNameOf path) (newDirectory (leafNameOf path) now))).
Proof.
  unfold directoryAt, createDirectory, isDirectoryNode. intros Hd.
  destruct (getItemAtPath fs (parentPathOf path)) as [parent|]; [|discriminate].
  apply andb_true_iff in Hd as [Ht Hc]. rewrite Ht. simpl.
  destruct (children parent); [|discriminate].
  now rewrite lookupParts_pathParts.
Qed.

Lemma createDirectory_fail (now : Date) (fs : FileSystem) (path : string) :
  directoryAt fs (parentPathOf path) = false ->
  createDirectory now fs path = (false, fs).
Proof.
  unfold directoryAt, createDirectory, isDirectoryNode. intros Hd.
  destruct (getItemAtPath fs (parentPathOf path)) as [parent|]; [|reflexivity].
  destruct (ItemType_eqb (type parent) directory); simpl in *; [|reflexivity].
  destruct (children parent); [discriminate | reflexivity].
Qed.

(** A successful [createDirectory] had a directory node as parent. *)
Lemma createDirectory_true (now : Date) (fs fs' : FileSystem) (path : string) :
  createDirectory now fs path = (true, fs') ->
  directoryAt fs (parentPathOf path) = true.
Proof.
  intros Hc. destruct (directoryAt fs (parentPathOf path)) eqn:E; [reflexivity|].
  rewrite (createDirectory_fail _ _ _ E) in Hc. discriminate.
Qed.

(** What a lookup of the created path finds, for a non-empty leaf name. *)
Lemma lookup_created (fs : FileSystem) (path : string) (item : FileSystemItem) :
  directoryAt fs (parentPathOf path) = true -> leafNameOf path <> "" ->
  getItemAtPath
    (updateAt fs (pathParts (parentPathOf path)) (setChild (leafNameOf path) item))
    path = Some item.
Proof.
  intros Hd Hleaf. rewrite getItemAtPath_walk.
  rewrite (pathParts_parent_leaf path) at 1.
  rewrite (pathParts_segment _ (leafNameOf_no_slash path) Hleaf).
  unfold directoryAt in Hd. rewrite getItemAtPath_walk in Hd.
  destruct (walk fs (pathParts (parentPathOf path))) as [parent|] eqn:Hw;
    [|discriminate].
  now apply (walk_setChild _ _ _ _ parent).
Qed.

(** After a successful [createDirectory], the path looks up to a directory
    node, also when its leaf name is empty. *)
Lemma directoryAt_created (now : Date) (fs fs' : FileSystem) (path : string) :
  createDirectory now fs path = (true, fs') -> directoryAt fs' path = true.
Proof.
  intros Hc. pose proof (createDirectory_true _ _ _ _ Hc) as Hd.
  rewrite (createDirectory_ok _ _ _ Hd) in Hc. injection Hc as <-.
  destruct (String.eqb_spec (leafNameOf path) "") as [He|Hne].
  - unfold directoryAt in *. rewrite getItemAtPath_walk in *.
    rewrite (pathParts_parent_leaf path) at 1.
    rewrite He, pathParts_empty, app_nil_r.
    destruct (walk fs (pathParts (parentPathOf path))) as [parent|] eqn:Hw;
      [|discriminate].
    rewrite (walk_updateAt _ _ _ _ Hw). now apply setChild_directory.
  - unfold directoryAt. now rewrite (lookup_created _ _ _ Hd Hne).
Qed.

End StoreFacts.

(** ** Facts about the path resolver *)

Module ResolveFacts.
Import Js JsFacts StoreFacts.

Lemma join_split (c : ascii) (s : string) : join (String c "") (split c s) = s.
Proof.
  induction s as [|a s IH]; [reflexivity|].
  simpl split. destruct (Ascii.eqb_spec a c) as [->|Hne].
  - rewrite join_cons by apply split_not_nil. now rewrite IH.
  - destruct (split c s) as [|h t] eqn:E; [now apply split_not_nil in E|].
    destruct t as [|h' t].
    + simpl in *. now rewrite IH.
    + rewrite join_cons in * by discriminate.
      rewrite app_cons. now rewrite IH.
Qed.

Lemma Forall_pop {P : string -> Prop} (l : list string) :
  Forall P l -> Forall P (pop l).
Proof.
  unfold pop. induction 1 as [|x l Hx Hl IH]; simpl; [constructor|].
  destruct l; [constructor | now constructor].
Qed.

Lemma Forall_push {P : string -> Prop} (l : list string) (x : string) :
  Forall P l -> P x -> Forall P (push l x).
Proof. intros Hl Hx. apply Forall_app. split; [assumption | now constructor]. Qed.

Lemma pathParts_plain (d : string) : Forall plainSegment (pathParts d).
Proof.
  unfold pathParts, filterBoolean. apply List.Forall_forall. intros x Hx.
  apply filter_In in Hx as [Hin Ht]. split.
  - now apply truthy_true.
  - pose proof (split_pieces "/" d) as Hp.
    rewrite List.Forall_forall in Hp. now apply Hp.
Qed.

(** One round of the loop of [resolvePath] keeps any property of the stack
    that holds of every slash-free segment other than the empty one, [.]
    and [..]. *)
Lemma resolveStep_Forall {P : string -> Prop} (acc : list string) (part : string) :
  (forall x, occurs "/" x = false -> x <> "" -> x <> "." -> x <> ".." -> P x) ->
  occurs "/" part = false -> Forall P acc -> Forall P (resolveStep acc part).
Proof.
  intros HP Hpart Hacc. unfold resolveStep.
  destruct (String.eqb_spec part "..") as [->|Hdd]; [now apply Forall_pop|].
  destruct (String.eqb_spec part ".") as [->|Hd]; [assumption|].
  destruct (String.eqb_spec part "") as [->|He]; [assumption|].
  simpl. apply Forall_push; [assumption|]. now apply HP.
Qed.

Lemma fold_resolveStep_Forall {P : string -> Prop} (parts acc : list string) :
  (forall x, occurs "/" x = false -> x <> "" -> x <> "." -> x <> ".." -> P x) ->
  Forall (fun x => occurs "/" x = false) parts -> Forall P acc ->
  Forall P (fold_left resolveStep parts acc).
Proof.
  intros HP Hparts. revert acc.
  induction Hparts as [|x parts Hx Hparts IH]; intros acc Hacc; simpl;
    [assumption|].
  apply IH. now apply resolveStep_Forall.
Qed.

Lemma endsWith_occurs (s : string) (c : ascii) :
  endsWith s c = true -> occurs c s = true.
Proof.
  induction s as [|a s IH]; simpl; [discriminate|].
  destruct s as [|b s].
  - intros ->. reflexivity.
  - intros He. rewrite (IH He). apply orb_true_r.
Qed.

Lemma startsWith_cons (a : ascii) (s : string) :
  startsWith (String a s) (String a "") = true.
Proof.
  unfold startsWith. simpl.
  destruct (ascii_dec a a); [now destruct s | congruence].
Qed.

Lemma startsWith_inv (s : string) (a : ascii) :
  startsWith s (String a "") = true -> exists rest, s = String a rest.
Proof.
  unfold startsWith. destruct s as [|b s]; simpl; [discriminate|].
  destruct (ascii_dec a b) as [->|]; [|discriminate]. now exists s.
Qed.

Lemma endsWith_cons (a : ascii) (s : string) (c : ascii) :
  s <> "" -> endsWith (String a s) c = endsWith s c.
Proof. destruct s; [congruence | reflexivity]. Qed.

Lemma endsWith_app (a b : string) (c : ascii) :
  b <> "" -> endsWith (a ++ b) c = endsWith b c.
Proof.
  intros Hb. induction a as [|x a IH]; [reflexivity|].
  rewrite app_cons. simpl. destruct (a ++ b)%string eqn:E; [|exact IH].
  destruct a; [rewrite app_nil in E; congruence | rewrite app_cons in E; discriminate].
Qed.

(** The join of plain segments is not empty and does not end with a slash. *)
Lemma join_plain (l : list string) :
  l <> [] -> Forall plainSegment l ->
  join "/" l <> "" /\ endsWith (join "/" l) "/" = false.
Proof.
  induction l as [|x l IH]; [congruence|].
  intros _ Hall. inversion Hall as [|? ? [Hx Ho] Hl]; subst.
  destruct l as [|y l].
  - simpl. split; [assumption|].
    destruct (endsWith x "/") eqn:E; [|reflexivity].
    apply endsWith_occurs in E. congruence.
  - destruct (IH ltac:(discriminate) Hl) as [Hne He].
    rewrite join_cons by discriminate. split.
    + destruct x; [congruence | rewrite app_cons; discriminate].
    + rewrite endsWith_app by (rewrite app_cons; discriminate).
      rewrite app_cons, app_nil. now rewrite endsWith_cons.
Qed.

(** A rendered stack of plain segments starts with a slash and does not end
    with one, unless it is the root. *)
Lemma renderParts_shape (l : list string) :
  Forall plainSegment l ->
  startsWith (renderParts l) "/" = true /\
  (renderParts l = "/" \/ endsWith (renderParts l) "/" = false).
Proof.
  intros Hl. unfold renderParts. destruct l as [|x l]; simpl Nat.eqb; cbv iota.
  - split; [reflexivity | now left].
  - destruct (join_plain (x :: l) ltac:(discriminate) Hl) as [Hne He].
    rewrite app_cons, app_nil. split; [apply startsWith_cons | right].
    now rewrite endsWith_cons.
Qed.

Lemma stripTrailingSlash_id (s : string) :
  endsWith s "/" = false -> stripTrailingSlash s = s.
Proof.
  induction s as [|a s IH]; [reflexivity|].
  simpl. destruct s as [|b s].
  - intros ->. reflexivity.
  - intros He. now rewrite (IH He).
Qed.

(** Stripping one trailing slash leaves none, unless there were two. *)
Lemma stripTrailingSlash_clean (s : string) :
  endsWithDoubleSlash s = false -> endsWith (stripTrailingSlash s) "/" = false.
Proof.
  induction s as [|a s IH]; [reflexivity|].
  destruct s as [|b s].
  - intros _. simpl. destruct (Ascii.eqb a "/") eqn:E; [reflexivity | exact E].
  - destruct s as [|c s].
    + cbn [endsWithDoubleSlash stripTrailingSlash]. intros Hd.
      destruct (Ascii.eqb b "/") eqn:Eb.
      * rewrite andb_true_r in Hd. exact Hd.
      * simpl. exact Eb.
    + intros Hd. specialize (IH Hd).
      change (stripTrailingSlash (String a (String b (String c s))))
        with (String a (stripTrailingSlash (String b (String c s)))).
      rewrite endsWith_cons; [exact IH | discriminate].
Qed.

(** An absolute path without a trailing slash is a fixed point of the
    resolver, whatever the current directory. *)
Lemma resolvePath_fixed (d r : string) :
  startsWith r "/" = true -> r = "/" \/ endsWith r "/" = false ->
  resolvePath d r = r.
Proof.
  intros Hs Hr. unfold resolvePath. rewrite Hs.
  destruct (String.eqb_spec r "/") as [->|Hne]; [reflexivity|].
  destruct Hr as [->|He]; [congruence|]. now apply stripTrailingSlash_id.
Qed.

Lemma cleanSegment_plain (x : string) : cleanSegment x -> plainSegment x.
Proof.
  intros [Hp Ho]. split; [|assumption].
  unfold properSegment in Hp. apply andb_true_iff in Hp as [Hp _].
  apply andb_true_iff in Hp as [Hp _]. now apply truthy_true.
Qed.

Lemma cleanSegment_intro (x : string) :
  occurs "/" x = false -> x <> "" -> x <> "." -> x <> ".." -> cleanSegment x.
Proof.
  intros Ho He Hd Hdd. split; [|assumption]. unfold properSegment.
  apply truthy_true in He. rewrite He.
  destruct (String.eqb_spec x "."); [congruence|].
  destruct (String.eqb_spec x ".."); [congruence|]. reflexivity.
Qed.

(** A normalized path is the rendering of its own segments, all clean. *)
Lemma normalized_parts (d : string) :
  normalized d = true ->
  d = renderParts (pathParts d) /\ Forall cleanSegment (pathParts d).
Proof.
  destruct d as [|a rest]; [discriminate|]. simpl normalized.
  intros Hn. apply andb_true_iff in Hn as [Ha Hn].
  apply Ascii.eqb_eq in Ha as ->.
  destruct (String.eqb_spec rest "") as [Heq|Hne].
  - subst rest. split; [reflexivity | constructor].
  - simpl in Hn. rewrite forallb_forall in Hn.
    assert (Hparts : pathParts (String "/" rest) = split "/" rest).
    { unfold pathParts, filterBoolean. simpl split.
      change (Ascii.eqb "/" "/") with true. cbv iota. simpl List.filter.
      apply forallb_filter_id. apply forallb_forall. intros x Hx.
      specialize (Hn x Hx). unfold properSegment in Hn.
      apply andb_true_iff in Hn as [Hn _]. now apply andb_true_iff in Hn as [Hn _]. }
    rewrite Hparts. split.
    + unfold renderParts.
      destruct (split "/" rest) as [|h t] eqn:E; [now apply split_not_nil in E|].
      simpl Nat.eqb. cbv iota. rewrite <- E, join_split. reflexivity.
    + apply List.Forall_forall. intros x Hx. split; [now apply Hn|].
      pose proof (split_pieces "/" rest) as Hp.
      rewrite List.Forall_forall in Hp. now apply Hp.
Qed.

(** The rendering of clean segments is normalized. *)
Lemma renderParts_normalized (l : list string) :
  Forall cleanSegment l -> normalized (renderParts l) = true.
Proof.
  intros Hl. unfold renderParts. destruct l as [|x l]; [reflexivity|].
  simpl Nat.eqb. cbv iota. rewrite app_cons, app_nil. unfold normalized.
  rewrite Ascii.eqb_refl. apply orb_true_iff. right.
  rewrite split_join.
  - apply forallb_forall. intros y Hy. rewrite List.Forall_forall in Hl.
    now apply Hl.
  - discriminate.
  - apply List.Forall_forall. intros y Hy. rewrite List.Forall_forall in Hl.
    now apply Hl.
Qed.

(** The stack the resolver starts from is [pathParts currentDir] in both
    branches of the conditional. *)
Lemma initial_stack (d : string) :
  (if String.eqb d "/" then [] else pathParts d) = pathParts d.
Proof. destruct (String.eqb_spec d "/") as [->|]; reflexivity. Qed.

(** For a token that is not absolute, [.] or [..], and for [..] as well, the
    result is the rendering of a stack of plain segments. *)
Lemma resolvePath_relative (d p : string) :
  startsWith p "/" = false -> p <> "." ->
  exists l, resolvePath d p = renderParts l /\ Forall plainSegment l /\
            (Forall cleanSegment (pathParts d) -> Forall cleanSegment l).
Proof.
  intros Hs Hd. unfold resolvePath. rewrite Hs.
  destruct (String.eqb_spec p ".") as [|_]; [congruence|].
  destruct (String.eqb_spec p "..") as [_|_].
  - exists (pop (pathParts d)). split; [reflexivity|].
    split; [apply Forall_pop, pathParts_plain | apply Forall_pop].
  - rewrite initial_stack.
    exists (fold_left resolveStep (split "/" p) (pathParts d)).
    split; [reflexivity|]. split.
    + apply fold_resolveStep_Forall;
        [now intros x Ho He _ _; split | apply split_pieces | apply pathParts_plain].
    + intros Hc. apply fold_resolveStep_Forall;
        [apply cleanSegment_intro | apply split_pieces | assumption].
Qed.

End ResolveFacts.

(** ** Properties of the path resolver *)

Section Resolver.
Import Js JsFacts StoreFacts ResolveFacts.

(** C6: [resolvePath "/home/user" ".."] is [/home], [resolvePath "/" ".."]
    is [/] (dropping the last segment of the root is a no-op), and
    [resolvePath "/home/user" "../../etc"] is [/etc] (each [..] pops one
    segment of the working stack). *)
Theorem resolvePath_examples :
  resolvePath "/home/user" ".." = "/home" /\
  resolvePath "/" ".." = "/" /\
  resolvePath "/home/user" "../../etc" = "/etc" /\
  fold_left resolveStep (split "/" "../../etc") (pathParts "/home/user") = ["etc"] /\
  pop (pathParts "/") = [].
Proof. repeat split; reflexivity. Qed.

(** Counterexample to C3 as stated: an absolute token that ends with two
    slashes loses one slash per resolution, so resolving the result of
    [resolvePath "/" "/a//"] once more changes it; and the token [.] returns
    the current directory as it is, so a current directory with a trailing
    slash is not a fixed point either. *)
Lemma resolvePath_not_idempotent :
  resolvePath "/" (resolvePath "/" "/a//") <> resolvePath "/" "/a//" /\
  resolvePath "/a/" (resolvePath "/a/" ".") <> resolvePath "/a/" ".".
Proof. vm_compute. split; discriminate. Qed.

(** Stripping removes exactly one character from a string that ends with a
    slash. *)
Lemma stripTrailingSlash_length (s : string) :
  endsWith s "/" = true ->
  S (String.length (stripTrailingSlash s)) = String.length s.
Proof.
  induction s as [|a s IH]; [discriminate|].
  destruct s as [|b s].
  - simpl. intros ->. reflexivity.
  - intros He. rewrite endsWith_cons in He by discriminate.
    change (stripTrailingSlash (String a (String b s)))
      with (String a (stripTrailingSlash (String b s))).
    simpl String.length in *. now rewrite (IH He).
Qed.

Lemma stripTrailingSlash_fixed (s : string) :
  stripTrailingSlash s = s -> endsWith s "/" = false.
Proof.
  intros Hs. destruct (endsWith s "/") eqn:E; [|reflexivity].
  apply stripTrailingSlash_length in E. rewrite Hs in E. lia.
Qed.

Lemma stripTrailingSlash_snoc (s : string) :
  endsWith s "/" = true -> s = (stripTrailingSlash s ++ "/")%string.
Proof.
  induction s as [|a s IH]; [discriminate|].
  destruct s as [|b s].
  - simpl. intros He. apply Ascii.eqb_eq in He as ->. reflexivity.
  - intros He. rewrite endsWith_cons in He by discriminate.
    change (stripTrailingSlash (String a (String b s)))
      with (String a (stripTrailingSlash (String b s))).
    rewrite app_cons. now rewrite <- (IH He).
Qed.

Lemma doubleSlash_endsWith (s : string) :
  endsWithDoubleSlash s = true -> endsWith s "/" = true.
Proof.
  induction s as [|a s IH]; [discriminate|].
  destruct s as [|b s]; [discriminate|].
  destruct s as [|c s].
  - cbn [endsWithDoubleSlash]. intros Hd.
    apply andb_true_iff in Hd as [_ Hb]. exact Hb.
  - intros Hd. rewrite endsWith_cons by discriminate. now apply IH.
Qed.

(** After one slash is stripped from two, one is left. *)
Lemma doubleSlash_strip (s : string) :
  endsWithDoubleSlash s = true -> endsWith (stripTrailingSlash s) "/" = true.
Proof.
  induction s as [|a s IH]; [discriminate|].
  destruct s as [|b s]; [discriminate|].
  destruct s as [|c s].
  - cbn [endsWithDoubleSlash stripTrailingSlash]. intros Hd.
    apply andb_true_iff in Hd as [Ha Hb]. rewrite Hb. exact Ha.
  - intros Hd. specialize (IH Hd).
    change (stripTrailingSlash (String a (String b (String c s))))
      with (String a (stripTrailingSlash (String b (String c s)))).
    rewrite endsWith_cons; [exact IH | discriminate].
Qed.

(** C3 (as amended): for every current directory [d] and token [p],
    resolving the result of a resolution returns it unchanged exactly when
    these two conditions hold: if [p] is [.], then [d] is [.] or starts with
    a slash and does not end with one unless it is the root; and if [p]
    starts with a slash, then [p] is [//] or does not end with two slashes.
    In particular it holds for every token that neither starts with a slash
    nor is [.], whatever the current directory. *)
Theorem resolvePath_idempotent (d p : string) :
  resolvePath d (resolvePath d p) = resolvePath d p <->
  (p = "." -> absoluteDir d = true \/ d = ".") /\
  (startsWith p "/" = true -> endsWithDoubleSlash p = false \/ p = "//").
Proof.
  split.
  - intros Hfix. split.
    + intros ->. change (resolvePath d ".") with d in Hfix.
      destruct (startsWith d "/") eqn:Hs.
      * left. unfold absoluteDir. rewrite Hs. simpl.
        unfold resolvePath in Hfix. rewrite Hs in Hfix.
        destruct (String.eqb_spec d "/") as [Heq|Hne]; [reflexivity|].
        simpl. now rewrite (stripTrailingSlash_fixed _ Hfix).
      * destruct (String.eqb_spec d ".") as [Heq|Hne]; [now right|].
        destruct (resolvePath_relative d d Hs Hne) as (l & Hr & Hl & _).
        destruct (renderParts_shape l Hl) as [Hstart _].
        rewrite <- Hr, Hfix in Hstart. congruence.
    + intros Hs. destruct (endsWithDoubleSlash p) eqn:Hd; [|now left]. right.
      assert (Hr : resolvePath d p = stripTrailingSlash p).
      { unfold resolvePath. rewrite Hs.
        destruct (String.eqb_spec p "/") as [->|_]; [discriminate | reflexivity]. }
      rewrite Hr in Hfix.
      destruct (startsWith_inv _ _ Hs) as [rest ->].
      destruct rest as [|b rest]; [discriminate|].
      assert (Hstart : startsWith (stripTrailingSlash (String "/" (String b rest))) "/"
                       = true).
      { change (stripTrailingSlash (String "/" (String b rest)))
          with (String "/" (stripTrailingSlash (String b rest))).
        apply startsWith_cons. }
      unfold resolvePath in Hfix at 1. rewrite Hstart in Hfix.
      destruct (String.eqb_spec (stripTrailingSlash (String "/" (String b rest))) "/")
        as [Heq|Hne].
      * rewrite (stripTrailingSlash_snoc _ (doubleSlash_endsWith _ Hd)), Heq.
        reflexivity.
      * apply stripTrailingSlash_fixed in Hfix.
        rewrite (doubleSlash_strip _ Hd) in Hfix. discriminate.
  - intros [Hdot Habs].
    assert (Hshape : resolvePath d p = "." /\ d = "." \/
                     startsWith (resolvePath d p) "/" = true /\
                     (resolvePath d p = "/" \/
                      endsWith (resolvePath d p) "/" = false)).
    { destruct (startsWith p "/") eqn:Hs.
      - right. destruct (Habs eq_refl) as [Hp|Hp]; [|subst p; now split; [|left]].
        unfold resolvePath. rewrite Hs.
        destruct (String.eqb_spec p "/") as [Heq|Hne]; [now split; [|left]|].
        destruct (startsWith_inv _ _ Hs) as [rest Hrest]. subst p.
        destruct rest as [|b rest]; [congruence|]. split.
        + change (stripTrailingSlash (String "/" (String b rest)))
            with (String "/" (stripTrailingSlash (String b rest))).
          apply startsWith_cons.
        + right. now apply stripTrailingSlash_clean.
      - destruct (String.eqb_spec p ".") as [Heq|Hne].
        + subst p. change (resolvePath d ".") with d.
          destruct (Hdot eq_refl) as [Hd|Hd]; [right | now left].
          unfold absoluteDir in Hd. apply andb_true_iff in Hd as [Hd1 Hd2].
          split; [assumption|]. apply orb_true_iff in Hd2 as [Hd2|Hd2].
          * left. now apply String.eqb_eq.
          * right. now apply negb_true_iff.
        + right. destruct (resolvePath_relative d p Hs Hne) as (l & -> & Hl & _).
          now apply renderParts_shape. }
    destruct Hshape as [[Hr Hd]|[Hs Hr]].
    + rewrite Hr, Hd. reflexivity.
    + now apply resolvePath_fixed.
Qed.

(** The amended C3 at a relative token that ends with two slashes, and at
    the token [.] in a current directory without a trailing slash. *)
Lemma resolvePath_idempotent_witness :
  resolvePath "/home/user" (resolvePath "/home/user" "docs//") =
  resolvePath "/home/user" "docs//" /\
  absoluteDir "/home/user" = true /\
  resolvePath "/home/user" (resolvePath "/home/user" ".") =
  resolvePath "/home/user" ".".
Proof.
  split; [|split; [reflexivity|]].
  - apply (proj2 (resolvePath_idempotent "/home/user" "docs//")).
    split; [discriminate | discriminate].
  - apply (proj2 (resolvePath_idempotent "/home/user" ".")).
    split; [intros _; left; reflexivity | discriminate].
Defined.

(** C10: for every normalized absolute current directory [d] and every token
    [p] that does not start with a slash, [resolvePath d p] is a normalized
    absolute path: a slash followed by segments none of which is empty, [.]
    or [..]; in particular it ends with a slash only when it is the root. *)
Theorem resolvePath_normalized (d p : string) :
  normalized d = true -> startsWith p "/" = false ->
  normalized (resolvePath d p) = true /\
  startsWith (resolvePath d p) "/" = true /\
  (endsWith (resolvePath d p) "/" = true -> resolvePath d p = "/").
Proof.
  intros Hd Hs.
  assert (Hn : normalized (resolvePath d p) = true).
  { destruct (String.eqb_spec p ".") as [Heq|Hne].
    - subst p. unfold resolvePath. now rewrite Hs.
    - destruct (resolvePath_relative d p Hs Hne) as (l & -> & _ & Hl).
      apply renderParts_normalized, Hl. now apply normalized_parts. }
  split; [assumption|].
  destruct (normalized_parts _ Hn) as [Hr Hc].
  assert (Hplain : Forall plainSegment (pathParts (resolvePath d p))).
  { eapply List.Forall_impl; [|exact Hc]. apply cleanSegment_plain. }
  destruct (renderParts_shape _ Hplain) as [H1 H2]. rewrite <- Hr in H1, H2.
  split; [assumption|]. intros He. destruct H2 as [H2|H2]; [assumption|congruence].
Qed.

(** C10 at [/home/user] and [./../x//y/]. *)
Lemma resolvePath_normalized_witness :
  normalized "/home/user" = true /\ startsWith "./../x//y/" "/" = false /\
  normalized (resolvePath "/home/user" "./../x//y/") = true.
Proof.
  split; [reflexivity|]. split; [reflexivity|].
  apply (resolvePath_normalized "/home/user" "./../x//y/"); reflexivity.
Defined.

End Resolver.

(** ** Properties of the store *)

Section Store.
Import Js JsFacts StoreFacts.

(** C4: [createFile] on a path whose parent path does not look up to an
    existing directory node returns failure and the tree it was given; and
    after a successful [createDirectory] of a path, [createFile] of a leaf
    under that path succeeds. *)
Theorem createFile_parent_required
    (now now' : Date) (fs fs' : FileSystem) (path leaf content : string) :
  (directoryAt fs (parentPathOf path) = false ->
   createFile now fs path content = (false, fs)) /\
  (createDirectory now fs path = (true, fs') -> occurs "/" leaf = false ->
   fst (createFile now' fs' (path ++ "/" ++ leaf) content) = true).
Proof.
  split; [apply createFile_fail|].
  intros Hc Hleaf. pose proof (directoryAt_created _ _ _ _ Hc) as Hd.
  rewrite createFile_ok; [reflexivity|].
  change (path ++ "/" ++ leaf)%string with (path ++ String "/" leaf)%string.
  rewrite (proj1 (parent_leaf_slash path leaf Hleaf)).
  destruct path as [|a path]; [|exact Hd].
  unfold directoryAt in *. now rewrite getItemAtPath_walk in *.
Qed.

(** C4 at [/nope/x.txt] and at [/home/user/new] with the leaf [x.txt]. *)
Lemma createFile_parent_required_witness :
  createFile 0%Z fs0 "/nope/x.txt" "c" = (false, fs0) /\
  fst (createFile 2%Z (snd (createDirectory 1%Z fs0 "/home/user/new"))
                  ("/home/user/new" ++ "/" ++ "x.txt") "c") = true.
Proof.
  split.
  - apply (createFile_parent_required 0%Z 0%Z fs0 fs0 "/nope/x.txt" "" "c").
    reflexivity.
  - apply (createFile_parent_required 1%Z 2%Z fs0
             (snd (createDirectory 1%Z fs0 "/home/user/new"))
             "/home/user/new" "x.txt" "c").
    + vm_compute. reflexivity.
    + reflexivity.
Defined.

(** C5: on the initial filesystem, [createFile] of [/home/user/x.txt] with
    content [hi] succeeds, and a lookup of that path in the resulting tree
    returns a file node whose content is [hi] and whose size is 2. *)
Theorem createFile_lookup_roundtrip (now now' : Date) :
  exists (fs' : FileSystem) (item : FileSystemItem),
    createFile now' (createInitialFileSystem now) "/home/user/x.txt" "hi" = (true, fs') /\
    getItemAtPath fs' "/home/user/x.txt" = Some item /\
    type item = file /\ content item = Some "hi" /\ size item = 2 /\
    size item = String.length "hi".
Proof.
  exists (snd (createFile now' (createInitialFileSystem now) "/home/user/x.txt" "hi")).
  exists (newFile "x.txt" "hi" now').
  split; [vm_compute; reflexivity|].
  split; [vm_compute; reflexivity|].
  repeat split; reflexivity.
Qed.

End Store.

(** ** Properties of the command dispatcher *)

Section Commands.
Import Js JsFacts StoreFacts.

Context (H : Handlers) (now : Date).

(** Counterexample to C1 as stated: the dispatcher does not produce the
    strings [clear-screen] and [change-directory:/etc]. *)
Lemma sentinels_are_not_the_documented_strings :
  output (fst (run "clear" [] "/home/user" fs0)) <> "clear-screen" /\
  directoryAt fs0 (resolvePath "/home/user" "/etc") = true /\
  output (fst (run "cd" ["/etc"] "/home/user" fs0)) <> "change-directory:/etc".
Proof. vm_compute. repeat split; discriminate. Qed.

(** C1 (as amended): for every filesystem and current directory, [clear]
    returns the output [__CLEAR__]; and for every [cd] whose resolved target
    (the argument, or [/home/user] when the argument is the empty string)
    exists and is a directory, the result has exit code 0 and the output
    [__CD__] followed by the resolved absolute path. *)
Theorem sentinel_outputs (currentDir path : string) (fs : FileSystem)
    (item : FileSystemItem) :
  output (fst (executeCommand H now "clear" [] currentDir fs)) = "__CLEAR__" /\
  (let resolvedPath := resolvePath currentDir (strOr (Some path) "/home/user") in
   getItemAtPath fs resolvedPath = Some item -> type item = directory ->
   fst (executeCommand H now "cd" [path] currentDir fs) =
   mkResult ("__CD__" ++ resolvedPath) None 0).
Proof.
  split; [reflexivity|]. intros resolvedPath Hitem Htype.
  unfold executeCommand. simpl. unfold handleCd. simpl arg.
  fold resolvedPath. rewrite Hitem, Htype. reflexivity.
Qed.

(** C8: for every command name that is not a case label of the dispatcher
    (the comparison is exact and case-sensitive), the result has exit code
    127, the error [bash: <name>: command not found] and an empty output, and
    the filesystem is returned as it was given. *)
Theorem unknown_command (command : string) (args : list string)
    (currentDir : string) (fs : FileSystem) :
  ~ In command dispatchTable ->
  executeCommand H now command args currentDir fs =
  (mkResult "" (Some ("bash: " ++ command ++ ": command not found")) 127, fs).
Proof.
  intros Hnot. unfold executeCommand.
  repeat match goal with
  | |- context [String.eqb command ?s] =>
      destruct (String.eqb_spec command s) as [Heq|_];
      [ exfalso; apply Hnot; rewrite Heq; simpl;
        repeat (first [left; reflexivity | right]) | ]
  end.
  reflexivity.
Qed.

(** [includes] decides literal substring occurrence. *)
Lemma prefix_spec (p s : string) :
  String.prefix p s = true <-> exists post, s = (p ++ post)%string.
Proof.
  revert s. induction p as [|a p IH]; intros s.
  - split; [intros _; now exists s | intros _; now destruct s].
  - destruct s as [|b s]; simpl.
    + split; [discriminate | intros [post Hp]; rewrite app_cons in Hp; discriminate].
    + destruct (ascii_dec a b) as [->|Hne].
      * rewrite IH. split; intros [post Hp]; exists post.
        -- now rewrite app_cons, Hp.
        -- rewrite app_cons in Hp. now injection Hp.
      * split; [discriminate|]. intros [post Hp]. rewrite app_cons in Hp.
        injection Hp as Hab _. congruence.
Qed.

Lemma includes_spec (s p : string) :
  includes s p = true <-> isSubstring p s.
Proof.
  unfold isSubstring. induction s as [|a s IH]; cbn [includes].
  - rewrite orb_false_r, prefix_spec. split.
    + intros [post Hp]. now exists "", post.
    + intros (pre & post & Hp). destruct pre; [|rewrite app_cons in Hp; discriminate].
      now exists post.
  - rewrite orb_true_iff, prefix_spec, IH. split.
    + intros [[post Hp]|(pre & post & Hp)].
      * now exists "", post.
      * exists (String a pre), post. now rewrite app_cons, Hp.
    + intros (pre & post & Hp). destruct pre as [|b pre].
      * left. now exists post.
      * right. rewrite app_cons in Hp. injection Hp as _ Hp. now exists pre, post.
Qed.

(** C7: for every pattern and every file argument that resolves to an
    existing file node, [grep] matches by literal substring on each
    newline-split line, returns the matching lines joined by newlines, and
    returns exit code 0 exactly when some line contains the pattern, else 1. *)
Theorem grep_literal_match (pattern filePath currentDir : string)
    (fs : FileSystem) (item : FileSystemItem) :
  getItemAtPath fs (resolvePath currentDir filePath) = Some item ->
  type item = file ->
  let lines := split (ascii_of_nat 10) (contentOf item) in
  let result := executeCommand H now "grep" [pattern; filePath] currentDir fs in
  (forall line, includes line pattern = true <-> isSubstring pattern line) /\
  output (fst result) =
    join nl (List.filter (fun line => includes line pattern) lines) /\
  error (fst result) = None /\
  (exitCode (fst result) = 0 <->
   exists line, In line lines /\ isSubstring pattern line) /\
  (exitCode (fst result) = 0 \/ exitCode (fst result) = 1) /\
  snd result = fs.
Proof.
  intros Hitem Htype lines result.
  split; [intros line; apply includes_spec|].
  subst result. unfold executeCommand. simpl. unfold handleGrep.
  rewrite Hitem, Htype. simpl. fold lines.
  split; [reflexivity|]. split; [reflexivity|].
  destruct (List.filter (fun line => includes line pattern) lines) as [|m ms] eqn:E.
  - simpl. split; [|split; [now right | reflexivity]].
    split; [discriminate|]. intros (line & Hin & Hsub). exfalso.
    assert (Hf : In line (List.filter (fun line => includes line pattern) lines)).
    { apply filter_In. split; [assumption | now apply includes_spec]. }
    rewrite E in Hf. exact Hf.
  - simpl. split; [|split; [now left | reflexivity]].
    split; [|reflexivity]. intros _. exists m.
    assert (Hf : In m (List.filter (fun line => includes line pattern) lines)).
    { rewrite E. now left. }
    apply filter_In in Hf as [Hin Hinc]. split; [assumption|].
    now apply includes_spec.
Qed.

End Commands.

(** The amended C1 at [cd ../../etc] from [/home/user]. *)
Lemma sentinel_outputs_witness :
  let item := default fs0 (getItemAtPath fs0 "/etc") in
  getItemAtPath fs0 (resolvePath "/home/user" (Js.strOr (Some "../../etc") "/home/user"))
    = Some item /\
  type item = directory /\
  fst (run "cd" ["../../etc"] "/home/user" fs0) = mkResult "__CD__/etc" None 0.
Proof.
  intros item. split; [vm_compute; reflexivity|]. split; [reflexivity|].
  apply (proj2 (sentinel_outputs plainHandlers 0%Z "/home/user" "../../etc" fs0 item)).
  - vm_compute. reflexivity.
  - reflexivity.
Defined.

(** C8 at the name [frobnicate]. *)
Lemma unknown_command_witness :
  ~ In "frobnicate" dispatchTable /\
  run "frobnicate" [] "/home/user" fs0 =
  (mkResult "" (Some "bash: frobnicate: command not found") 127, fs0).
Proof.
  split.
  - simpl. intuition discriminate.
  - apply (unknown_command plainHandlers 0%Z "frobnicate" [] "/home/user" fs0).
    simpl. intuition discriminate.
Defined.

(** C7 at [grep Term project.md] in [/home/user/documents]. *)
Lemma grep_literal_match_witness :
  let item := default fs0 (getItemAtPath fs0 "/home/user/documents/project.md") in
  getItemAtPath fs0 (resolvePath "/home/user/documents" "project.md") = Some item /\
  type item = file /\
  output (fst (run "grep" ["Term"; "project.md"] "/home/user/documents" fs0)) =
  Js.join nl (List.filter (fun line => Js.includes line "Term")
                (Js.split (ascii_of_nat 10) (contentOf item))).
Proof.
  intros item. split; [vm_compute; reflexivity|]. split; [reflexivity|].
  apply (proj1 (proj2 (grep_literal_match plainHandlers 0%Z "Term" "project.md"
                         "/home/user/documents" fs0 item
                         ltac:(vm_compute; reflexivity) ltac:(reflexivity)))).
Defined.

(** ** Properties of touch and mkdir *)

Section Mutation.
Import Js JsFacts StoreFacts.

Context (H : Handlers) (now : Date).

(** Counterexample to C9 as stated: [touch /] and [mkdir /] return exit code
    0 (the parent path computed for [/] is [/] itself), yet the node at [/]
    is afterwards still the root directory with its old subtree; the same
    happens for a path whose resolution keeps a trailing slash. *)
Lemma touch_mkdir_empty_leaf_not_replaced :
  let touched := run "touch" ["/"] "/home/user" fs0 in
  let made := run "mkdir" ["/"] "/home/user" fs0 in
  let touched' := run "touch" ["/etc//"] "/home/user" fs0 in
  directoryAt fs0 (parentPathOf (resolvePath "/home/user" "/")) = true /\
  exitCode (fst touched) = 0 /\
  option_map type (getItemAtPath (snd touched) (resolvePath "/home/user" "/"))
    = Some directory /\
  exitCode (fst made) = 0 /\
  getItemAtPath (snd made) "/etc/hosts" <> None /\
  directoryAt fs0 (parentPathOf (resolvePath "/home/user" "/etc//")) = true /\
  exitCode (fst touched') = 0 /\
  option_map type (getItemAtPath (snd touched') (resolvePath "/home/user" "/etc//"))
    = Some directory.
Proof. vm_compute. repeat split; discriminate. Qed.

(** C9 (as amended): for every path [p] whose resolved path has a non-empty
    last segment and whose parent resolves to an existing directory, [touch]
    and [mkdir] return exit code 0 whether or not a node exists at the
    resolved path, and afterwards a lookup of the resolved path finds the new
    node: for [touch] a file whose content is the empty string, for [mkdir]
    a directory whose children map is empty. *)
Theorem touch_mkdir_replace (p currentDir : string) (fs : FileSystem) :
  let resolvedPath := resolvePath currentDir p in
  leafNameOf resolvedPath <> "" ->
  directoryAt fs (parentPathOf resolvedPath) = true ->
  (exists (fs' : FileSystem) (item : FileSystemItem),
      executeCommand H now "touch" [p] currentDir fs = (mkResult "" None 0, fs') /\
      getItemAtPath fs' resolvedPath = Some item /\
      name item = leafNameOf resolvedPath /\
      type item = file /\ content item = Some "" /\ children item = None) /\
  (exists (fs' : FileSystem) (item : FileSystemItem),
      executeCommand H now "mkdir" [p] currentDir fs = (mkResult "" None 0, fs') /\
      getItemAtPath fs' resolvedPath = Some item /\
      name item = leafNameOf resolvedPath /\
      type item = directory /\ children item = Some ∅ /\ content item = None).
Proof.
  intros resolvedPath Hleaf Hdir. split.
  - eexists. exists (newFile (leafNameOf resolvedPath) "" now). split.
    + unfold executeCommand. simpl. unfold handleTouch. simpl.
      fold resolvedPath. rewrite (createFile_ok _ _ _ _ Hdir). reflexivity.
    + split; [now apply lookup_created|]. repeat split; reflexivity.
  - eexists. exists (newDirectory (leafNameOf resolvedPath) now). split.
    + unfold executeCommand. simpl. unfold handleMkdir. simpl.
      fold resolvedPath. rewrite (createDirectory_ok _ _ _ Hdir). reflexivity.
    + split; [now apply lookup_created|]. repeat split; reflexivity.
Qed.

End Mutation.

(** The amended C9 at [touch documents] in [/home/user], where a directory
    of that name exists. *)
Lemma touch_mkdir_replace_witness :
  leafNameOf (resolvePath "/home/user" "documents") <> "" /\
  directoryAt fs0 (parentPathOf (resolvePath "/home/user" "documents")) = true /\
  exists (fs' : FileSystem) (item : FileSystemItem),
    run "touch" ["documents"] "/home/user" fs0 = (mkResult "" None 0, fs') /\
    getItemAtPath fs' (resolvePath "/home/user" "documents") = Some item /\
    name item = leafNameOf (resolvePath "/home/user" "documents") /\
    type item = file /\ content item = Some "" /\ children item = None.
Proof.
  split; [vm_compute; discriminate|]. split; [vm_compute; reflexivity|].
  apply (proj1 (touch_mkdir_replace plainHandlers 0%Z "documents" "/home/user" fs0
                  ltac:(vm_compute; discriminate) ltac:(vm_compute; reflexivity))).
Defined.

(** ** Properties of head and tail *)

Section HeadTail.
Import Js JsFacts StoreFacts.

(** The option [-n tok] with a token that parses to a non-zero number. *)
Lemma lineCountArgs_counted (tok : string) (rest : list string) (n : Z) :
  parseInt tok = Some n -> n <> 0%Z ->
  lineCountArgs ("-n" :: tok :: rest) = (n, rest).
Proof.
  intros Hp Hn. unfold lineCountArgs. simpl arg.
  destruct tok as [|a tok]; [discriminate|].
  change (String.eqb "-n" "-n" && truthy (String a tok)) with true. cbv iota.
  rewrite Hp. unfold numOr. destruct (Z.eqb_spec n 0); [congruence | reflexivity].
Qed.

(** A token that parses to zero is falsy and selects the default. *)
Lemma lineCountArgs_zero (tok : string) (rest : list string) :
  parseInt tok = Some 0%Z -> lineCountArgs ("-n" :: tok :: rest) = (10%Z, rest).
Proof.
  intros Hp. unfold lineCountArgs. simpl arg.
  destruct tok as [|a tok]; [discriminate|].
  change (String.eqb "-n" "-n" && truthy (String a tok)) with true. cbv iota.
  rewrite Hp. reflexivity.
Qed.

(** A non-empty token that does not parse selects the default. *)
Lemma lineCountArgs_nan (tok : string) (rest : list string) :
  tok <> "" -> parseInt tok = None ->
  lineCountArgs ("-n" :: tok :: rest) = (10%Z, rest).
Proof.
  intros Hne Hp. unfold lineCountArgs. simpl arg.
  destruct tok as [|a tok]; [congruence|].
  change (String.eqb "-n" "-n" && truthy (String a tok)) with true. cbv iota.
  rewrite Hp. reflexivity.
Qed.

(** Without the flag: a single argument is the file. *)
Lemma lineCountArgs_single (filePath : string) :
  lineCountArgs [filePath] = (10%Z, [filePath]).
Proof. reflexivity. Qed.

Lemma relIndex_nonneg (len : nat) (n : Z) :
  (0 <= n)%Z -> relIndex len n = Nat.min (Z.to_nat n) len.
Proof.
  intros Hn. unfold relIndex.
  destruct (n <? 0)%Z eqn:E; [apply Z.ltb_lt in E|]; lia.
Qed.

Lemma relIndex_neg (len : nat) (n : Z) :
  (0 < n)%Z -> relIndex len (- n) = len - Z.to_nat n.
Proof.
  intros Hn. unfold relIndex.
  destruct (- n <? 0)%Z eqn:E; [|apply Z.ltb_ge in E]; lia.
Qed.

Lemma slice_first {A : Type} (l : list A) (n : Z) :
  (0 <= n)%Z -> slice l 0 n = firstn (Z.to_nat n) l.
Proof.
  intros Hn. unfold slice.
  rewrite (relIndex_nonneg _ 0), (relIndex_nonneg _ n) by lia.
  change (Nat.min (Z.to_nat 0) (List.length l)) with 0.
  rewrite Nat.sub_0_r. change (skipn 0 l) with l.
  destruct (Nat.le_ge_cases (Z.to_nat n) (List.length l)) as [Hle|Hge].
  - now rewrite Nat.min_l.
  - rewrite Nat.min_r by assumption.
    rewrite (firstn_all2 (n := Z.to_nat n)) by assumption.
    apply firstn_all2. apply Nat.le_refl.
Qed.

Lemma sliceFrom_last {A : Type} (l : list A) (n : Z) :
  (0 < n)%Z -> sliceFrom l (- n) = skipn (List.length l - Z.to_nat n) l.
Proof.
  intros Hn. unfold sliceFrom, slice.
  rewrite relIndex_neg, relIndex_nonneg by lia.
  apply firstn_all2. rewrite length_skipn. lia.
Qed.

(** [head -n N file] with a token [N] that parses to a positive number prints
    the first [N] newline-split lines, and [tail -n N file] the last [N]. *)
Lemma head_tail_counted (tok filePath currentDir : string) (fs : FileSystem)
    (item : FileSystemItem) (n : Z) :
  parseInt tok = Some n -> (0 < n)%Z ->
  getItemAtPath fs (resolvePath currentDir filePath) = Some item ->
  type item = file ->
  let lines := split (ascii_of_nat 10) (contentOf item) in
  handleHead ["-n"; tok; filePath] currentDir fs =
    okResult (join nl (firstn (Z.to_nat n) lines)) /\
  handleTail ["-n"; tok; filePath] currentDir fs =
    okResult (join nl (skipn (List.length lines - Z.to_nat n) lines)).
Proof.
  intros Hp Hn Hitem Htype lines. unfold handleHead, handleTail.
  rewrite (lineCountArgs_counted _ _ _ Hp) by lia.
  rewrite Hitem, Htype. simpl negb. cbv iota. fold lines.
  now rewrite slice_first, sliceFrom_last by lia.
Qed.

(** Without [-n], or with a non-empty token that is not a number, both
    print ten lines. *)
Lemma head_tail_default (tok filePath currentDir : string) (fs : FileSystem)
    (item : FileSystemItem) :
  tok <> "" -> parseInt tok = None ->
  getItemAtPath fs (resolvePath currentDir filePath) = Some item ->
  type item = file ->
  let lines := split (ascii_of_nat 10) (contentOf item) in
  handleHead [filePath] currentDir fs = okResult (join nl (firstn 10 lines)) /\
  handleTail [filePath] currentDir fs =
    okResult (join nl (skipn (List.length lines - 10) lines)) /\
  handleHead ["-n"; tok; filePath] currentDir fs = handleHead [filePath] currentDir fs /\
  handleTail ["-n"; tok; filePath] currentDir fs = handleTail [filePath] currentDir fs.
Proof.
  intros Hne Hp Hitem Htype lines. unfold handleHead, handleTail.
  rewrite (lineCountArgs_nan _ _ Hne Hp), lineCountArgs_single.
  rewrite Hitem, Htype. simpl negb. cbv iota. fold lines.
  rewrite (slice_first lines 10), (sliceFrom_last lines 10) by lia.
  repeat split; reflexivity.
Qed.

(** C2 fails for the count 0: the token [0] parses to zero, which the
    fallback [parseInt(args[1]) || 10] treats like a parse failure.  On the
    eleven-line file [project.md], [head -n 0] prints the first ten lines
    and [tail -n 0] the last ten, where the first and last zero lines are the
    empty output. *)
Theorem head_tail_zero_count_prints_ten :
  let item := default fs0 (getItemAtPath fs0 "/home/user/documents/project.md") in
  let lines := split (ascii_of_nat 10) (contentOf item) in
  let head0 := run "head" ["-n"; "0"; "project.md"] "/home/user/documents" fs0 in
  let tail0 := run "tail" ["-n"; "0"; "project.md"] "/home/user/documents" fs0 in
  getItemAtPath fs0 (resolvePath "/home/user/documents" "project.md") = Some item /\
  parseInt "0" = Some 0%Z /\
  List.length lines = 11 /\
  output (fst head0) = join nl (firstn 10 lines) /\
  output (fst head0) <> join nl (firstn 0 lines) /\
  output (fst tail0) = join nl (skipn 1 lines) /\
  output (fst tail0) <> join nl (skipn 11 lines).
Proof. vm_compute. repeat split; discriminate. Qed.

End HeadTail.

(** ** Facts about trimming, splitting on white space and lower case *)

Module TextFacts.
Import Js JsText JsFacts.

Lemma splitWs_not_nil (b : bool) (s : string) : splitWsAux b s <> [].
Proof.
  revert b. induction s as [|a s IH]; intros b; simpl; [discriminate|].
  destruct (isWhiteSpace a).
  - destruct b; [apply IH | discriminate].
  - destruct (splitWsAux false s); discriminate.
Qed.

(** Outside a run, a leading white space character opens an empty piece;
    otherwise the two modes of the scan agree. *)
Lemma splitWs_false (s : string) :
  splitWsAux false s =
  if startsWord s then splitWsAux true s
  else match s with
       | EmptyString => splitWsAux true s
       | String _ _ => "" :: splitWsAux true s
       end.
Proof.
  destruct s as [|a s]; [reflexivity|]. simpl.
  destruct (isWhiteSpace a); reflexivity.
Qed.

Lemma splitWs_pieces (b : bool) (s : string) :
  Forall (fun x => whitespaceFree x = true) (splitWsAux b s).
Proof.
  revert b. induction s as [|a s IH]; intros b; simpl.
  - repeat constructor.
  - destruct (isWhiteSpace a) eqn:E.
    + destruct b; [apply IH | constructor; [reflexivity | apply IH]].
    + specialize (IH false). destruct (splitWsAux false s) as [|h t].
      * repeat constructor. simpl. now rewrite E.
      * inversion IH; subst. constructor; [|assumption]. simpl. now rewrite E.
Qed.

Lemma endsWord_cons (a : ascii) (s : string) :
  s <> "" -> endsWord (String a s) = endsWord s.
Proof. destruct s; [congruence | reflexivity]. Qed.

(** Inside a run, a string that ends with a word has no empty piece. *)
Lemma splitWs_true_nonempty (s : string) :
  endsWord s = true -> Forall (fun x => x <> "") (splitWsAux true s).
Proof.
  induction s as [|a s IH]; [discriminate|].
  intros He. cbn [splitWsAux]. destruct (isWhiteSpace a) eqn:E.
  - destruct s as [|b s]; [simpl in He; rewrite E in He; discriminate|].
    apply IH. now rewrite endsWord_cons in He.
  - destruct s as [|b s]; [repeat constructor; discriminate|].
    rewrite endsWord_cons in He by discriminate. specialize (IH He).
    rewrite splitWs_false. destruct (startsWord (String b s)).
    + destruct (splitWsAux true (String b s)) as [|h t] eqn:Es;
        [now apply splitWs_not_nil in Es|].
      inversion IH; subst. constructor; [discriminate | assumption].
    + constructor; [discriminate | assumption].
Qed.

Lemma trimStart_shape (s : string) :
  trimStart s = "" \/ startsWord (trimStart s) = true.
Proof.
  induction s as [|a s IH]; [now left|]. simpl.
  destruct (isWhiteSpace a) eqn:E; [exact IH|]. right. simpl. now rewrite E.
Qed.

Lemma trimStart_blank (s : string) : trimStart s = "" <-> isBlank s = true.
Proof.
  induction s as [|a s IH]; simpl; [tauto|].
  destruct (isWhiteSpace a); simpl; [exact IH|]. split; discriminate.
Qed.

Lemma trimEnd_shape (s : string) :
  trimEnd s = "" \/ endsWord (trimEnd s) = true.
Proof.
  induction s as [|a s IH]; [now left|]. cbn [trimEnd].
  destruct (String.eqb_spec (trimEnd s) "") as [He|Hne].
  - rewrite He, andb_true_r. destruct (isWhiteSpace a) eqn:E; [now left|].
    right. simpl. now rewrite E.
  - rewrite andb_false_r. right. rewrite endsWord_cons by assumption.
    destruct IH; [congruence | assumption].
Qed.

Lemma trimEnd_blank (s : string) : trimEnd s = "" <-> isBlank s = true.
Proof.
  induction s as [|a s IH]; [simpl; tauto|]. cbn [trimEnd isBlank].
  destruct (isWhiteSpace a); simpl.
  - destruct (String.eqb_spec (trimEnd s) "") as [He|Hne].
    + split; [intros _; now apply IH | reflexivity].
    + split; [discriminate | intros Hb; apply IH in Hb; congruence].
  - split; discriminate.
Qed.

Lemma trimEnd_startsWord (s : string) :
  startsWord s = true -> startsWord (trimEnd s) = true.
Proof.
  destruct s as [|a s]; [discriminate|]. cbn [trimEnd startsWord].
  intros Ha. apply negb_true_iff in Ha. rewrite Ha. simpl. now rewrite Ha.
Qed.

Lemma startsWord_not_blank (s : string) : startsWord s = true -> isBlank s = false.
Proof.
  destruct s as [|a s]; [discriminate|]. simpl. intros Ha.
  apply negb_true_iff in Ha. now rewrite Ha.
Qed.

Lemma trim_blank (s : string) : trim s = "" <-> isBlank s = true.
Proof.
  unfold trim. rewrite trimEnd_blank. split.
  - intros Hb. destruct (trimStart_shape s) as [He|Hw].
    + now apply trimStart_blank.
    + apply startsWord_not_blank in Hw. congruence.
  - intros Hb. apply trimStart_blank in Hb. now rewrite Hb.
Qed.

(** A trimmed string is empty, or starts and ends with a word. *)
Lemma trim_shape (s : string) :
  trim s = "" \/ (startsWord (trim s) = true /\ endsWord (trim s) = true).
Proof.
  unfold trim. destruct (trimEnd_shape (trimStart s)) as [He|Hw]; [now left|].
  right. split; [|assumption].
  destruct (trimStart_shape s) as [He|Hs].
  - rewrite He in Hw. discriminate.
  - now apply trimEnd_startsWord.
Qed.

Lemma trimStart_id (s : string) : startsWord s = true -> trimStart s = s.
Proof.
  destruct s as [|a s]; [discriminate|]. simpl. intros Ha.
  apply negb_true_iff in Ha. now rewrite Ha.
Qed.

Lemma trimEnd_id (s : string) : endsWord s = true -> trimEnd s = s.
Proof.
  induction s as [|a s IH]; [discriminate|].
  destruct s as [|b s].
  - simpl. intros Ha. apply negb_true_iff in Ha. now rewrite Ha.
  - intros He. rewrite endsWord_cons in He by discriminate.
    cbn [trimEnd] in *. rewrite (IH He).
    change (String.eqb (String b s) "") with false. now rewrite andb_false_r.
Qed.

Lemma sliceFrom_tail {A : Type} (l : list A) : sliceFrom l 1 = tl l.
Proof.
  unfold sliceFrom, slice, relIndex. simpl Z.ltb. cbv iota.
  destruct (Z.of_nat (List.length l) <? 0)%Z eqn:E; [apply Z.ltb_lt in E; lia|].
  rewrite Z.min_id, Nat2Z.id. destruct l as [|x l].
  - reflexivity.
  - replace (Z.to_nat (Z.min 1 (Z.of_nat (List.length (x :: l))))) with 1
      by (simpl List.length; lia).
    simpl. rewrite Nat.sub_0_r. apply firstn_all.
Qed.

(** The parts of a command line that is not blank. *)
Lemma parseCommand_parts (input : string) :
  isBlank input = false ->
  parseCommand input =
    (hd "" (splitWsAux true (trim input)), tl (splitWsAux true (trim input))) /\
  Forall (fun x => isWord x = true) (splitWsAux true (trim input)) /\
  splitWsAux true (trim input) <> [].
Proof.
  intros Hb. unfold parseCommand.
  destruct (trim_shape input) as [He|[Hs Hw]];
    [apply trim_blank in He; congruence|].
  assert (Ht : truthy (trim input) = true).
  { apply truthy_true. intros He. rewrite He in Hs. discriminate. }
  rewrite Ht. simpl negb. cbv iota. unfold splitWhitespace.
  rewrite splitWs_false, Hs, sliceFrom_tail. split; [reflexivity|].
  split; [|apply splitWs_not_nil].
  pose proof (splitWs_true_nonempty _ Hw) as Hne.
  pose proof (splitWs_pieces true (trim input)) as Hfree.
  rewrite List.Forall_forall in *. intros x Hx. unfold isWord.
  rewrite (Hfree x Hx), andb_true_r. apply truthy_true. now apply Hne.
Qed.

Lemma isWord_inv (x : string) :
  isWord x = true -> x <> "" /\ whitespaceFree x = true.
Proof.
  unfold isWord. intros Hx. apply andb_true_iff in Hx as [Ht Hf].
  split; [now apply truthy_true | assumption].
Qed.

Lemma word_startsWord (x : string) : isWord x = true -> startsWord x = true.
Proof.
  intros Hx. apply isWord_inv in Hx as [Hne Hf].
  destruct x as [|a x]; [congruence|]. simpl in *.
  now apply andb_true_iff in Hf as [Hf _].
Qed.

Lemma word_endsWord (x : string) : isWord x = true -> endsWord x = true.
Proof.
  intros Hx. apply isWord_inv in Hx as [Hne Hf].
  induction x as [|a x IH]; [congruence|].
  simpl in Hf. apply andb_true_iff in Hf as [Ha Hf].
  destruct x as [|b x]; [exact Ha|].
  rewrite endsWord_cons by discriminate. apply IH; [discriminate | assumption].
Qed.

Lemma startsWord_app (a b : string) :
  startsWord a = true -> startsWord (a ++ b) = true.
Proof. destruct a; [discriminate | now rewrite app_cons]. Qed.

Lemma endsWord_app (a b : string) :
  endsWord b = true -> endsWord (a ++ b) = true.
Proof.
  intros Hb. induction a as [|x a IH]; [exact Hb|].
  rewrite app_cons, endsWord_cons; [exact IH|].
  destruct a; [rewrite app_nil; intros He; rewrite He in Hb; discriminate
              | rewrite app_cons; discriminate].
Qed.

(** A word followed by a white space character is the first piece. *)
Lemma splitWs_word_sep (x rest : string) (a : ascii) :
  whitespaceFree x = true -> isWhiteSpace a = true ->
  splitWsAux false (x ++ String a rest) = x :: splitWsAux true rest.
Proof.
  intros Hx Ha. induction x as [|b x IH].
  - rewrite app_nil. simpl. now rewrite Ha.
  - simpl in Hx. apply andb_true_iff in Hx as [Hb Hx].
    apply negb_true_iff in Hb. rewrite app_cons. cbn [splitWsAux].
    now rewrite Hb, (IH Hx).
Qed.

Lemma splitWs_word (x : string) :
  whitespaceFree x = true -> splitWsAux false x = [x].
Proof.
  induction x as [|b x IH]; [reflexivity|]. simpl. intros Hx.
  apply andb_true_iff in Hx as [Hb Hx]. apply negb_true_iff in Hb.
  now rewrite Hb, (IH Hx).
Qed.

(** Words joined by single spaces: the line starts and ends with a word and
    splits back into the words. *)
Lemma join_words (words : list string) :
  words <> [] -> Forall (fun x => isWord x = true) words ->
  startsWord (join " " words) = true /\ endsWord (join " " words) = true /\
  splitWsAux false (join " " words) = words.
Proof.
  induction words as [|x words IH]; [congruence|].
  intros _ Hall. inversion Hall as [|? ? Hx Hrest]; subst.
  destruct words as [|y words].
  - simpl. split; [now apply word_startsWord|]. split; [now apply word_endsWord|].
    apply splitWs_word. now apply isWord_inv in Hx.
  - destruct (IH ltac:(discriminate) Hrest) as (Hs & He & Hsplit).
    rewrite join_cons by discriminate. rewrite app_cons, app_nil.
    split; [apply startsWord_app; now apply word_startsWord|].
    split; [apply endsWord_app; now rewrite endsWord_cons
              by (intros E; rewrite E in Hs; discriminate)|].
    rewrite splitWs_word_sep by (now apply isWord_inv in Hx || reflexivity).
    f_equal. rewrite splitWs_false, Hs in Hsplit. exact Hsplit.
Qed.

(** Words joined by single spaces parse back to the words. *)
Lemma parse_join (command : string) (args : list string) :
  isWord command = true -> Forall (fun x => isWord x = true) args ->
  parseCommand (join " " (command :: args)) = (command, args).
Proof.
  intros Hc Hargs.
  assert (Hall : Forall (fun x => isWord x = true) (command :: args))
    by now constructor.
  destruct (join_words (command :: args) ltac:(discriminate) Hall)
    as (Hs & He & Hsplit).
  unfold parseCommand, trim.
  rewrite (trimStart_id _ Hs), (trimEnd_id _ He).
  assert (Ht : truthy (join " " (command :: args)) = true).
  { apply truthy_true. intros E. rewrite E in Hs. discriminate. }
  rewrite Ht. simpl negb. cbv iota. unfold splitWhitespace.
  now rewrite Hsplit, sliceFrom_tail.
Qed.

Lemma whitespaceFree_app (a b : string) :
  whitespaceFree (a ++ b) = whitespaceFree a && whitespaceFree b.
Proof.
  induction a as [|x a IH]; [reflexivity|].
  rewrite app_cons. simpl. now rewrite IH, andb_assoc.
Qed.

Lemma trimEnd_app_space (s : string) : trimEnd (s ++ " ") = trimEnd s.
Proof.
  induction s as [|a s IH]; [reflexivity|].
  rewrite app_cons. cbn [trimEnd]. now rewrite IH.
Qed.

(** A word followed by one space parses to the word alone. *)
Lemma parse_word_space (s : string) :
  isWord s = true -> parseCommand (s ++ " ") = (s, []).
Proof.
  intros Hs. pose proof (word_startsWord _ Hs) as Hstart.
  pose proof (word_endsWord _ Hs) as Hend.
  unfold parseCommand, trim.
  rewrite (trimStart_id (s ++ " ")) by now apply startsWord_app.
  rewrite trimEnd_app_space, (trimEnd_id _ Hend).
  assert (Ht : truthy s = true) by (destruct s; [discriminate | reflexivity]).
  rewrite Ht. simpl negb. cbv iota. unfold splitWhitespace.
  rewrite splitWs_word, sliceFrom_tail by now apply isWord_inv in Hs.
  reflexivity.
Qed.

(** A line with a non-empty command has a non-empty trimmed form. *)
Lemma parse_nonblank (s command : string) (args : list string) :
  parseCommand s = (command, args) -> command <> "" ->
  truthy (trim s) = true.
Proof.
  intros Hp Hne. destruct (truthy (trim s)) eqn:E; [reflexivity|].
  unfold parseCommand in Hp. rewrite E in Hp. simpl in Hp. congruence.
Qed.

Lemma toLowerCaseChar_idem (a : ascii) :
  toLowerCaseChar (toLowerCaseChar a) = toLowerCaseChar a.
Proof. destruct a as [[] [] [] [] [] [] [] []]; reflexivity. Qed.

Lemma toLowerCase_idem (s : string) : toLowerCase (toLowerCase s) = toLowerCase s.
Proof.
  induction s as [|a s IH]; [reflexivity|].
  simpl. now rewrite toLowerCaseChar_idem, IH.
Qed.

Lemma toLowerCase_app (a b : string) :
  toLowerCase (a ++ b) = (toLowerCase a ++ toLowerCase b)%string.
Proof.
  induction a as [|x a IH]; [reflexivity|].
  rewrite app_cons. simpl. now rewrite IH, app_cons.
Qed.

Lemma toLowerCase_truthy (s : string) : truthy (toLowerCase s) = truthy s.
Proof. destruct s; reflexivity. Qed.

End TextFacts.

(** ** Properties of the command line parser and of the completion list *)

Section Utils.
Import Js JsText JsFacts TextFacts.

(** X1: [parseCommand] returns the empty command with no arguments exactly
    for the inputs that consist of white space only (the empty input
    included). *)
Theorem parseCommand_blank (input : string) :
  isBlank input = true <-> parseCommand input = ("", []).
Proof.
  split.
  - intros Hb. unfold parseCommand. apply trim_blank in Hb. now rewrite Hb.
  - intros Hp. destruct (isBlank input) eqn:Hb; [reflexivity|].
    destruct (parseCommand_parts input Hb) as (Heq & Hall & Hne).
    rewrite Heq in Hp. destruct (splitWsAux true (trim input)) as [|h t];
      [congruence|].
    inversion Hall; subst. simpl in Hp. injection Hp as -> _. discriminate.
Qed.

(** [parseCommand_blank] on a line of two spaces and a tab. *)
Lemma parseCommand_blank_witness : parseCommand ("  " ++ tab) = ("", []).
Proof. apply (proj1 (parseCommand_blank ("  " ++ tab))). reflexivity. Defined.

(** X2: for an input that is not blank, the command and every argument
    returned by [parseCommand] are non-empty and contain no white space. *)
Theorem parseCommand_words (input : string) :
  isBlank input = false ->
  isWord (fst (parseCommand input)) = true /\
  Forall (fun x => isWord x = true) (snd (parseCommand input)).
Proof.
  intros Hb. destruct (parseCommand_parts input Hb) as (Heq & Hall & Hne).
  rewrite Heq. destruct (splitWsAux true (trim input)) as [|h t]; [congruence|].
  inversion Hall; subst. now split.
Qed.

Lemma parseCommand_words_witness :
  isBlank (" mkdir   a" ++ tab ++ "b ") = false /\
  isWord (fst (parseCommand (" mkdir   a" ++ tab ++ "b "))) = true /\
  Forall (fun x => isWord x = true) (snd (parseCommand (" mkdir   a" ++ tab ++ "b "))).
Proof.
  split; [reflexivity|].
  apply (parseCommand_words (" mkdir   a" ++ tab ++ "b ")). reflexivity.
Defined.

(** X3: a command and arguments that are non-empty and free of white space,
    joined by single spaces, parse back to themselves. *)
Theorem parseCommand_join (command : string) (args : list string) :
  isWord command = true -> Forall (fun x => isWord x = true) args ->
  parseCommand (join " " (command :: args)) = (command, args).
Proof. apply parse_join. Qed.

Lemma parseCommand_join_witness :
  isWord "grep" = true /\
  Forall (fun x => isWord x = true) ["Term"; "project.md"] /\
  parseCommand (join " " ["grep"; "Term"; "project.md"]) =
  ("grep", ["Term"; "project.md"]).
Proof.
  split; [reflexivity|].
  split; [repeat constructor|].
  apply (parseCommand_join "grep" ["Term"; "project.md"]);
    [reflexivity | repeat constructor].
Defined.

Lemma startsWith_empty (s : string) : startsWith s "" = true.
Proof. unfold startsWith. now destruct s. Qed.

Lemma suggestion_in_list (input s : string) :
  In s (getCommandSuggestions input) ->
  In s suggestionCommands /\ startsWith s (toLowerCase input) = true.
Proof.
  unfold getCommandSuggestions. destruct input as [|a input].
  - simpl negb. cbv iota. intros Hin. split; [assumption | apply startsWith_empty].
  - change (negb (truthy (String a input))) with false. cbv iota.
    intros Hin. now apply filter_In in Hin.
Qed.

Lemma suggestionCommands_known (s : string) :
  In s suggestionCommands ->
  In s dispatchTable /\ handleWhich [s] = okResult ("/bin/" ++ s).
Proof.
  intros Hin. unfold suggestionCommands in Hin. simpl in Hin.
  repeat (destruct Hin as [Heq|Hin];
          [subst s; split;
           [simpl; repeat (first [left; reflexivity | right]) | reflexivity]|]).
  contradiction.
Qed.

(** X4: every name that [getCommandSuggestions] proposes starts with the
    lower-cased input, is a case label of the dispatcher (so it never ends in
    [command not found]) and is located by [which] as [/bin/<name>]. *)
Theorem suggestions_are_commands (input s : string) :
  In s (getCommandSuggestions input) ->
  startsWith s (toLowerCase input) = true /\
  In s dispatchTable /\
  handleWhich [s] = okResult ("/bin/" ++ s).
Proof.
  intros Hin. apply suggestion_in_list in Hin as [Hin Hs].
  split; [assumption|]. now apply suggestionCommands_known.
Qed.

Lemma suggestions_are_commands_witness :
  In "cat" (getCommandSuggestions "CA") /\
  startsWith "cat" (toLowerCase "CA") = true /\
  In "cat" dispatchTable /\
  handleWhich ["cat"] = okResult ("/bin/" ++ "cat").
Proof.
  split; [vm_compute; tauto|].
  apply (suggestions_are_commands "CA" "cat"). vm_compute. tauto.
Defined.

(** Completion ignores the letter case of the input: an input and its
    lower-case form get the same suggestions. *)
Lemma suggestions_case_insensitive (input : string) :
  getCommandSuggestions (toLowerCase input) = getCommandSuggestions input.
Proof.
  unfold getCommandSuggestions.
  now rewrite toLowerCase_truthy, toLowerCase_idem.
Qed.

(** X5: typing more characters only narrows the suggestions: whatever is
    proposed for [a ++ b] is proposed for [a]. *)
Theorem suggestions_narrow (a b s : string) :
  In s (getCommandSuggestions (a ++ b)) -> In s (getCommandSuggestions a).
Proof.
  intros Hin. apply suggestion_in_list in Hin as [Hin Hs].
  unfold getCommandSuggestions. destruct a as [|x a]; [exact Hin|].
  change (negb (truthy (String x a))) with false. cbv iota.
  apply filter_In. split; [assumption|].
  unfold startsWith in *. rewrite toLowerCase_app in Hs.
  apply prefix_spec in Hs as [post Hs]. apply prefix_spec.
  exists (toLowerCase b ++ post)%string. now rewrite <- app_assoc.
Qed.

Lemma suggestions_narrow_witness :
  In "cowsay" (getCommandSuggestions ("c" ++ "ow")) /\
  In "cowsay" (getCommandSuggestions "c").
Proof.
  split; [vm_compute; tauto|].
  apply (suggestions_narrow "c" "ow" "cowsay"). vm_compute. tauto.
Defined.

Lemma argsInclude_In (l : list string) (x : string) :
  argsInclude l x = true <-> In x l.
Proof.
  unfold argsInclude. rewrite existsb_exists. split.
  - intros (y & Hy & Heq). apply String.eqb_eq in Heq. now subst.
  - intros Hin. exists x. split; [assumption | apply String.eqb_refl].
Qed.

Lemma whichCommands_dispatch (c : string) :
  In c whichCommands <-> In c dispatchTable /\ c <> "history".
Proof.
  split.
  - intros Hin. unfold whichCommands in Hin. simpl in Hin.
    repeat (destruct Hin as [Heq|Hin];
            [subst c; split;
             [simpl; repeat (first [left; reflexivity | right]) | discriminate]|]).
    contradiction.
  - intros [Hin Hne]. unfold dispatchTable in Hin. simpl in Hin.
    repeat (destruct Hin as [Heq|Hin];
            [subst c;
             first [congruence
                   | simpl; repeat (first [left; reflexivity | right])]|]).
    contradiction.
Qed.

(** X6: [which] succeeds on a name exactly when the name is a case label of
    the dispatcher other than [history]; [history] is dispatched but not
    located. *)
Theorem which_locates_dispatched (c : string) (rest : list string) :
  exitCode (handleWhich (c :: rest)) = 0 <-> In c dispatchTable /\ c <> "history".
Proof.
  rewrite <- whichCommands_dispatch, <- argsInclude_In. unfold handleWhich.
  destruct (argsInclude whichCommands c); simpl; split; congruence.
Qed.

End Utils.

(** ** Further facts about the store *)

Module StoreMore.
Import Js JsFacts StoreFacts ResolveFacts.

Lemma filter_truthy_plain (l : list string) :
  Forall plainSegment l -> filterBoolean l = l.
Proof.
  unfold filterBoolean. induction 1 as [|x l [Hx _] Hl IH]; [reflexivity|].
  simpl. apply truthy_true in Hx. now rewrite Hx, IH.
Qed.

Lemma split_sep_cons (c : ascii) (s : string) :
  split c (String c s) = "" :: split c s.
Proof. simpl. now rewrite Ascii.eqb_refl. Qed.

(** The segments of a rendered stack of plain segments are the stack. *)
Lemma pathParts_render (l : list string) :
  Forall plainSegment l -> pathParts (renderParts l) = l.
Proof.
  intros Hl. unfold renderParts. destruct l as [|x l]; [reflexivity|].
  simpl Nat.eqb. cbv iota. rewrite app_cons, app_nil.
  unfold pathParts. rewrite split_sep_cons, split_join.
  - change (filterBoolean ("" :: x :: l)) with (filterBoolean (x :: l)).
    now apply filter_truthy_plain.
  - discriminate.
  - eapply List.Forall_impl; [|exact Hl]. now intros y [_ Hy].
Qed.

(** A walk that continues below a node needs that node to carry children. *)
Lemma walk_app_Some (fs : FileSystemItem) (a b : list string)
    (item : FileSystemItem) :
  walk fs (a ++ b) = Some item -> b <> [] ->
  exists dir ch, walk fs a = Some dir /\ children dir = Some ch.
Proof.
  rewrite walk_app. destruct (walk fs a) as [dir|]; [|discriminate].
  intros Hw Hb. destruct b as [|x b]; [congruence|]. simpl in Hw.
  destruct (children dir) as [ch|] eqn:E; [|discriminate].
  now exists dir, ch.
Qed.




(** An update that stores a child under the empty key is not visible to a
    walk along non-empty segments, except in the [children] of the nodes. *)
Lemma walk_hidden (item : FileSystemItem) (q : list string) :
  Forall (fun x => x <> "") q ->
  forall (fs : FileSystemItem) (pp : list string),
    sameFaceOpt (walk (updateAt fs pp (setChild "" item)) q) (walk fs q).
Proof.
  assert (Hrefl : forall n, sameFace n n) by (intros n; repeat split).
  assert (Hsame : forall l n, sameFaceOpt (walk n l) (walk n l)).
  { intros l n. destruct (walk n l); simpl; auto. }
  induction 1 as [|x q Hx Hq IH]; intros fs pp.
  - simpl. destruct pp as [|c pp]; simpl.
    + unfold setChild. destruct (children fs); repeat split.
    + destruct (children fs) as [ch|]; [|apply Hrefl].
      destruct (ch !! c); [repeat split | apply Hrefl].
  - destruct pp as [|c pp]; simpl updateAt.
    + unfold setChild. destruct (children fs) as [ch|] eqn:E; [|apply Hsame].
      simpl. rewrite E, lookup_insert_ne by congruence. 
      destruct (ch !! x) as [child|]; [apply Hsame | exact I].
    + destruct (children fs) as [ch|] eqn:E; [|apply Hsame].
      destruct (ch !! c) as [child|] eqn:Ec; [|apply Hsame].
      simpl. rewrite E. destruct (String.eqb_spec c x) as [Heq|Hne].
      * subst x. rewrite lookup_insert_eq, Ec. apply IH.
      * rewrite lookup_insert_ne by assumption.
        destruct (ch !! x) as [child'|]; [apply Hsame | exact I].
Qed.

Lemma pathParts_nonempty (q : string) : Forall (fun x => x <> "") (pathParts q).
Proof.
  eapply List.Forall_impl; [|apply pathParts_plain]. now intros x [Hx _].
Qed.

Lemma createFile_true (now : Date) (fs fs' : FileSystem) (path content : string) :
  createFile now fs path content = (true, fs') ->
  directoryAt fs (parentPathOf path) = true.
Proof.
  intros Hc. destruct (directoryAt fs (parentPathOf path)) eqn:E; [reflexivity|].
  rewrite (createFile_fail _ _ _ _ E) in Hc. discriminate.
Qed.

(** What either creation does to the tree. *)
Lemma created_update (now : Date) (fs fs' : FileSystem) (path content : string) :
  createFile now fs path content = (true, fs') \/
  createDirectory now fs path = (true, fs') ->
  exists item,
    fs' = updateAt fs (pathParts (parentPathOf path))
                   (setChild (leafNameOf path) item).
Proof.
  intros [Hc|Hc].
  - pose proof (createFile_true _ _ _ _ _ Hc) as Hd.
    rewrite (createFile_ok _ _ _ _ Hd) in Hc. injection Hc as <-. eauto.
  - pose proof (createDirectory_true _ _ _ _ Hc) as Hd.
    rewrite (createDirectory_ok _ _ _ Hd) in Hc. injection Hc as <-. eauto.
Qed.

End StoreMore.

(** ** Further properties of the store *)

Section StoreExtra.
Import Js JsFacts StoreFacts ResolveFacts StoreMore.

(** X7: when the parent of [path] is an existing directory node and the leaf
    name is not empty, [createFile] succeeds and a lookup of [path] then
    returns a file node with the given content whose size is the length of
    the content, whatever was stored at [path] before. *)
Theorem createFile_then_lookup (now : Date) (fs : FileSystem)
    (path text : string) :
  directoryAt fs (parentPathOf path) = true -> leafNameOf path <> "" ->
  exists (fs' : FileSystem) (item : FileSystemItem),
    createFile now fs path text = (true, fs') /\
    getItemAtPath fs' path = Some item /\
    name item = leafNameOf path /\ type item = file /\
    content item = Some text /\ size item = String.length text /\
    children item = None /\ modified item = now.
Proof.
  intros Hd Hleaf. eexists. exists (newFile (leafNameOf path) text now).
  split; [now apply createFile_ok|].
  split; [now apply lookup_created|]. repeat split; reflexivity.
Qed.

Lemma createFile_then_lookup_witness :
  directoryAt fs0 (parentPathOf "/etc/hosts") = true /\
  leafNameOf "/etc/hosts" <> "" /\
  exists (fs' : FileSystem) (item : FileSystemItem),
    createFile 5%Z fs0 "/etc/hosts" "127.0.0.1 me" = (true, fs') /\
    getItemAtPath fs' "/etc/hosts" = Some item /\
    name item = leafNameOf "/etc/hosts" /\ type item = file /\
    content item = Some "127.0.0.1 me" /\
    size item = String.length "127.0.0.1 me" /\
    children item = None /\ modified item = 5%Z.
Proof.
  split; [vm_compute; reflexivity|]. split; [vm_compute; discriminate|].
  apply (createFile_then_lookup 5%Z fs0 "/etc/hosts" "127.0.0.1 me");
    [vm_compute; reflexivity | vm_compute; discriminate].
Defined.

(** X8: a successful [createDirectory] on a path with a non-empty leaf name
    leaves an empty directory there: the path looks up to a directory node,
    and no path below it whose first segment is not a property name inherited
    from [Object.prototype] looks up to anything, even when a populated
    directory was stored there before. *)
Theorem createDirectory_then_empty (now : Date) (fs fs' : FileSystem)
    (path below : string) :
  createDirectory now fs path = (true, fs') -> leafNameOf path <> "" ->
  pathParts below <> [] ->
  isInheritedKey (hd "" (pathParts below)) = false ->
  directoryAt fs' path = true /\
  getItemAtPath fs' (path ++ "/" ++ below) = None.
Proof.
  intros Hc Hleaf Hbelow _. split; [now apply (directoryAt_created now fs)|].
  pose proof (createDirectory_true _ _ _ _ Hc) as Hd.
  rewrite (createDirectory_ok _ _ _ Hd) in Hc. injection Hc as <-.
  pose proof (lookup_created fs path (newDirectory (leafNameOf path) now) Hd Hleaf)
    as Hl.
  rewrite getItemAtPath_walk in *.
  change (path ++ "/" ++ below)%string with (path ++ String "/" below)%string.
  rewrite pathParts_app, walk_app, Hl.
  destruct (pathParts below) as [|x rest]; [congruence|]. reflexivity.
Qed.

Lemma createDirectory_then_empty_witness :
  createDirectory 1%Z fs0 "/home/user" =
    (true, snd (createDirectory 1%Z fs0 "/home/user")) /\
  isInheritedKey (hd "" (pathParts "documents/readme.txt")) = false /\
  getItemAtPath fs0 ("/home/user" ++ "/" ++ "documents/readme.txt") <> None /\
  getItemAtPath (snd (createDirectory 1%Z fs0 "/home/user"))
    ("/home/user" ++ "/" ++ "documents/readme.txt") = None.
Proof.
  split; [vm_compute; reflexivity|]. split; [reflexivity|].
  split; [vm_compute; discriminate|].
  apply (createDirectory_then_empty 1%Z fs0
           (snd (createDirectory 1%Z fs0 "/home/user"))
           "/home/user" "documents/readme.txt");
    [vm_compute; reflexivity | vm_compute; discriminate
     | vm_compute; discriminate | reflexivity].
Defined.



(** X10: when the leaf name of [path] is empty (the path ends with a slash),
    a successful [createFile] or [createDirectory] stores the node under the
    empty key, which no lookup reaches: every path looks up to a node with
    the same name, type, content and metadata as before, or to nothing as
    before. *)
Theorem create_empty_leaf_hidden (now : Date) (fs fs' : FileSystem)
    (path content q : string) :
  createFile now fs path content = (true, fs') \/
  createDirectory now fs path = (true, fs') ->
  leafNameOf path = "" ->
  sameFaceOpt (getItemAtPath fs' q) (getItemAtPath fs q).
Proof.
  intros Hc Hleaf. destruct (created_update _ _ _ _ _ Hc) as [item ->].
  rewrite !getItemAtPath_walk, Hleaf. apply walk_hidden, pathParts_nonempty.
Qed.

Lemma create_empty_leaf_hidden_witness :
  leafNameOf "/etc/" = "" /\
  createFile 1%Z fs0 "/etc/" "x" = (true, snd (createFile 1%Z fs0 "/etc/" "x")) /\
  sameFaceOpt (getItemAtPath (snd (createFile 1%Z fs0 "/etc/" "x")) "/etc/")
              (getItemAtPath fs0 "/etc/").
Proof.
  split; [reflexivity|]. split; [vm_compute; reflexivity|].
  apply (create_empty_leaf_hidden 1%Z fs0 (snd (createFile 1%Z fs0 "/etc/" "x"))
           "/etc/" "x" "/etc/");
    [left; vm_compute; reflexivity | reflexivity].
Defined.

(** X11: [getItemAtPath] sees a path only through its non-empty segments: a
    path, the path with a slash appended, the path with a slash prepended
    (so a relative path is looked up from the root) and the path rendered
    from its segments all look up to the same result. *)
Theorem getItemAtPath_segments (fs : FileSystem) (path : string) :
  getItemAtPath fs (path ++ "/") = getItemAtPath fs path /\
  getItemAtPath fs ("/" ++ path) = getItemAtPath fs path /\
  getItemAtPath fs (renderParts (pathParts path)) = getItemAtPath fs path.
Proof.
  rewrite !getItemAtPath_walk. split; [|split].
  - change (path ++ "/")%string with (path ++ String "/" "")%string.
    now rewrite pathParts_app, pathParts_empty, app_nil_r.
  - reflexivity.
  - now rewrite pathParts_render by apply pathParts_plain.
Qed.

(** X12: if a path that continues below [path] looks up to a node, then
    [path] itself looks up to a node that carries a [children] dictionary;
    nothing is ever found below a node without children, such as a file. *)
Theorem getItemAtPath_ancestor (fs : FileSystem) (path below : string)
    (item : FileSystemItem) :
  getItemAtPath fs (path ++ "/" ++ below) = Some item ->
  pathParts below <> [] ->
  exists (dir : FileSystemItem) (ch : gmap string FileSystemItem),
    getItemAtPath fs path = Some dir /\ children dir = Some ch.
Proof.
  rewrite !getItemAtPath_walk.
  change (path ++ "/" ++ below)%string with (path ++ String "/" below)%string.
  rewrite pathParts_app. apply walk_app_Some.
Qed.

Lemma getItemAtPath_ancestor_witness :
  getItemAtPath fs0 ("/home/user" ++ "/" ++ "scripts/hello.sh") <> None /\
  pathParts "scripts/hello.sh" <> [] /\
  exists (dir : FileSystemItem) (ch : gmap string FileSystemItem),
    getItemAtPath fs0 "/home/user" = Some dir /\ children dir = Some ch.
Proof.
  split; [vm_compute; discriminate|]. split; [vm_compute; discriminate|].
  apply (getItemAtPath_ancestor fs0 "/home/user" "scripts/hello.sh"
           (default fs0 (getItemAtPath fs0 "/home/user/scripts/hello.sh")));
    [vm_compute; reflexivity | vm_compute; discriminate].
Defined.

End StoreExtra.

(** ** Further properties of the path resolver *)

Section ResolverExtra.
Import Js JsFacts StoreFacts ResolveFacts StoreMore.

(** For a token that is not absolute and not [.], the result is the stack
    left by the loop, rendered; the early return for [..] agrees with it. *)
Lemma resolvePath_loop (d p : string) :
  startsWith p "/" = false -> p <> "." ->
  resolvePath d p =
  renderParts (fold_left resolveStep (split "/" p) (pathParts d)).
Proof.
  intros Hs Hne. unfold resolvePath. rewrite Hs.
  destruct (String.eqb_spec p ".") as [|_]; [congruence|].
  destruct (String.eqb_spec p "..") as [->|_]; [reflexivity|].
  now rewrite initial_stack.
Qed.

Lemma loop_plain (d p : string) :
  Forall plainSegment (fold_left resolveStep (split "/" p) (pathParts d)).
Proof.
  apply fold_resolveStep_Forall;
    [now intros x Ho He _ _; split | apply split_pieces | apply pathParts_plain].
Qed.

Lemma startsWith_app_false (p q : string) :
  p <> "" -> startsWith p "/" = false -> startsWith (p ++ q) "/" = false.
Proof.
  destruct p as [|a p]; [congruence|]. intros _ Hp.
  rewrite app_cons. destruct (startsWith (String a (p ++ q)) "/") eqn:E;
    [|reflexivity].
  apply startsWith_inv in E as [rest E]. injection E as -> _.
  now rewrite startsWith_cons in Hp.
Qed.

(** X13: resolving [q] from the result of resolving [p] is resolving
    [p/q] in one go, for all tokens [p] and [q] that do not start with a
    slash, [p] being neither empty nor [.]: changing directory twice is
    changing directory along the joined path. *)
Theorem resolvePath_compose (d p q : string) :
  p <> "" -> p <> "." ->
  startsWith p "/" = false -> startsWith q "/" = false ->
  resolvePath (resolvePath d p) q = resolvePath d (p ++ "/" ++ q).
Proof.
  intros Hne Hdot Hp Hq.
  assert (Hpq : startsWith (p ++ "/" ++ q) "/" = false)
    by exact (startsWith_app_false p ("/" ++ q) Hne Hp).
  assert (Hpq' : (p ++ "/" ++ q)%string <> ".").
  { destruct p as [|a p]; [congruence|]. rewrite app_cons.
    destruct p; [rewrite app_nil | rewrite app_cons]; discriminate. }
  rewrite (resolvePath_loop d (p ++ "/" ++ q) Hpq Hpq').
  change (p ++ "/" ++ q)%string with (p ++ String "/" q)%string.
  rewrite split_app, fold_left_app, (resolvePath_loop d p Hp Hdot).
  set (stack := fold_left resolveStep (split "/" p) (pathParts d)).
  pose proof (loop_plain d p) as Hplain. fold stack in Hplain.
  destruct (String.eqb_spec q ".") as [->|Hqd].
  - unfold resolvePath. reflexivity.
  - rewrite (resolvePath_loop _ q Hq Hqd). now rewrite pathParts_render.
Qed.

Lemma resolvePath_compose_witness :
  resolvePath (resolvePath "/home/user" "../user/documents") "../scripts/." =
  resolvePath "/home/user" ("../user/documents" ++ "/" ++ "../scripts/.").
Proof.
  apply (resolvePath_compose "/home/user" "../user/documents" "../scripts/.");
    [discriminate | discriminate | reflexivity | reflexivity].
Defined.

(** X14: for every current directory, also one that is not absolute, and
    every token other than [.], the resolved path starts with a slash; and
    for a token that does not start with a slash it is in canonical form: it
    is the rendering of its own non-empty segments, with no doubled and no
    trailing slash. *)
Theorem resolvePath_absolute (d p : string) :
  p <> "." ->
  startsWith (resolvePath d p) "/" = true /\
  (startsWith p "/" = false ->
   resolvePath d p = renderParts (pathParts (resolvePath d p))).
Proof.
  intros Hdot. destruct (startsWith p "/") eqn:Hs.
  - split; [|discriminate]. unfold resolvePath. rewrite Hs.
    destruct (String.eqb_spec p "/") as [->|Hne]; [reflexivity|].
    destruct (startsWith_inv _ _ Hs) as [rest ->].
    destruct rest as [|b rest]; [congruence|].
    change (stripTrailingSlash (String "/" (String b rest)))
      with (String "/" (stripTrailingSlash (String b rest))).
    apply startsWith_cons.
  - rewrite (resolvePath_loop d p Hs Hdot).
    pose proof (loop_plain d p) as Hplain.
    split; [now apply renderParts_shape|]. intros _.
    now rewrite pathParts_render.
Qed.

Lemma resolvePath_absolute_witness :
  startsWith (resolvePath "not//absolute/" "a/../b//c/") "/" = true /\
  resolvePath "not//absolute/" "a/../b//c/" = "/not/absolute/b/c".
Proof.
  split.
  - apply (resolvePath_absolute "not//absolute/" "a/../b//c/"). discriminate.
  - reflexivity.
Defined.

End ResolverExtra.

(** ** Further properties of the builtin commands *)

Module CommandFacts.
Import Js JsFacts StoreFacts.

Lemma catLoop_files (args : list string) (d : string) (fs : FileSystem)
    (results : list string) :
  forallb (isFileAt d fs) args = true ->
  catLoop args d fs results =
  okResult (join nl (results ++ map (contentAt d fs) args)).
Proof.
  revert results. induction args as [|p args IH]; intros results Hall; simpl.
  - now rewrite app_nil_r.
  - simpl in Hall. apply andb_true_iff in Hall as [Hp Hall].
    unfold isFileAt, contentAt in *.
    destruct (getItemAtPath fs (resolvePath d p)) as [item|]; [|discriminate].
    rewrite Hp. simpl. rewrite (IH _ Hall), <- List.app_assoc. reflexivity.
Qed.

Lemma catLoop_stops (pre : list string) (bad : string) (post : list string)
    (d : string) (fs : FileSystem) (results : list string) :
  forallb (isFileAt d fs) pre = true -> isFileAt d fs bad = false ->
  catLoop (pre ++ bad :: post) d fs results =
  errResult
    (match getItemAtPath fs (resolvePath d bad) with
     | None => "cat: " ++ bad ++ ": No such file or directory"
     | Some _ => "cat: " ++ bad ++ ": Is a directory"
     end) 1.
Proof.
  revert results. induction pre as [|p pre IH]; intros results Hall Hbad; simpl.
  - unfold isFileAt in Hbad.
    destruct (getItemAtPath fs (resolvePath d bad)) as [item|]; [|reflexivity].
    now rewrite Hbad.
  - simpl in Hall. apply andb_true_iff in Hall as [Hp Hall].
    unfold isFileAt in Hp.
    destruct (getItemAtPath fs (resolvePath d p)) as [item|]; [|discriminate].
    rewrite Hp. simpl. now apply IH.
Qed.


Lemma split_length (c : ascii) (s : string) :
  List.length (split c s) = S (countChar c s).
Proof.
  induction s as [|a s IH]; [reflexivity|]. simpl.
  destruct (Ascii.eqb a c); simpl; [now rewrite IH|].
  destruct (split c s) as [|h t] eqn:E; [now apply split_not_nil in E|].
  simpl in *. exact IH.
Qed.

Lemma last_split_app (c : ascii) (stem ext : string) :
  occurs c ext = false ->
  List.last (split c (stem ++ String c ext)) "" = ext.
Proof.
  intros Ho. rewrite split_app, (split_no_occurrence _ _ Ho).
  apply last_last.
Qed.

End CommandFacts.

Section CommandExtra.
Import Js JsText JsFacts StoreFacts TextFacts CommandFacts.



(** X16: when every operand of [cat] resolves to a file node, the result has
    exit code 0 and its output is the contents of the files, in the order of
    the operands, joined by newlines. *)
Theorem handleCat_files (args : list string) (currentDir : string)
    (fs : FileSystem) :
  args <> [] -> forallb (isFileAt currentDir fs) args = true ->
  handleCat args currentDir fs =
  mkResult (join nl (map (contentAt currentDir fs) args)) None 0.
Proof.
  intros Hne Hall. unfold handleCat. destruct args as [|p args]; [congruence|].
  simpl Nat.eqb. cbv iota. now rewrite catLoop_files.
Qed.

Lemma handleCat_files_witness :
  forallb (isFileAt "/home/user" fs0) ["documents/readme.txt"; "/etc/hosts"] = true /\
  handleCat ["documents/readme.txt"; "/etc/hosts"] "/home/user" fs0 =
  mkResult (join nl (map (contentAt "/home/user" fs0)
                         ["documents/readme.txt"; "/etc/hosts"])) None 0.
Proof.
  split; [vm_compute; reflexivity|].
  apply (handleCat_files ["documents/readme.txt"; "/etc/hosts"] "/home/user" fs0);
    [discriminate | vm_compute; reflexivity].
Defined.

(** X17: [cat] stops at the first operand that does not resolve to a file
    node: the result has exit code 1, names that operand in its error ([No
    such file or directory] when nothing is there, [Is a directory]
    otherwise) and has an empty output; the contents of the files before it
    are discarded and the operands after it are not looked at. *)
Theorem handleCat_stops (pre : list string) (bad : string) (post : list string)
    (currentDir : string) (fs : FileSystem) :
  forallb (isFileAt currentDir fs) pre = true ->
  isFileAt currentDir fs bad = false ->
  handleCat (pre ++ bad :: post) currentDir fs =
  mkResult ""
    (Some (match getItemAtPath fs (resolvePath currentDir bad) with
           | None => "cat: " ++ bad ++ ": No such file or directory"
           | Some _ => "cat: " ++ bad ++ ": Is a directory"
           end)) 1.
Proof.
  intros Hall Hbad. unfold handleCat.
  destruct (pre ++ bad :: post)%list as [|x l] eqn:E;
    [destruct pre; discriminate|].
  simpl Nat.eqb. cbv iota. rewrite <- E. now apply catLoop_stops.
Qed.

Lemma handleCat_stops_witness :
  forallb (isFileAt "/home/user" fs0) ["/etc/hosts"] = true /\
  isFileAt "/home/user" fs0 "documents" = false /\
  handleCat (["/etc/hosts"] ++ "documents" :: ["nowhere"]) "/home/user" fs0 =
  mkResult "" (Some "cat: documents: Is a directory") 1.
Proof.
  split; [vm_compute; reflexivity|]. split; [vm_compute; reflexivity|].
  apply (handleCat_stops ["/etc/hosts"] "documents" ["nowhere"] "/home/user" fs0);
    vm_compute; reflexivity.
Defined.



(** X19: [file] classifies a file node by the piece of its stored name after
    the last dot, compared without regard to letter case; a name without a
    dot is its own last piece, so a file called [md] or [SH] is reported like
    one called [notes.md] or [run.SH]. *)
Theorem fileLine_extension (currentDir filePath stem ext : string)
    (fs : FileSystem) (item : FileSystemItem) :
  getItemAtPath fs (resolvePath currentDir filePath) = Some item ->
  type item = file ->
  name item = ext \/ name item = (stem ++ "." ++ ext)%string ->
  occurs "." ext = false ->
  (toLowerCase ext = "md" ->
   Builtins.fileLine currentDir fs filePath =
   (filePath ++ ": ASCII text (Markdown)")%string) /\
  (toLowerCase ext = "sh" ->
   Builtins.fileLine currentDir fs filePath =
   (filePath ++ ": Bourne-Again shell script")%string) /\
  (toLowerCase ext <> "md" -> toLowerCase ext <> "sh" ->
   Builtins.fileLine currentDir fs filePath =
   (filePath ++ ": ASCII text")%string).
Proof.
  intros Hitem Htype Hname Hext. unfold Builtins.fileLine.
  rewrite Hitem, Htype. simpl ItemType_eqb. cbv iota.
  assert (Hlast : List.last (split "." (name item)) "" = ext).
  { destruct Hname as [->| ->].
    - now rewrite (split_no_occurrence _ _ Hext).
    - change (stem ++ "." ++ ext)%string with (stem ++ String "." ext)%string.
      now apply last_split_app. }
  rewrite Hlast. repeat split.
  - now intros ->.
  - now intros ->.
  - intros Hmd Hsh.
    destruct (String.eqb_spec (toLowerCase ext) "md"); [congruence|].
    destruct (String.eqb_spec (toLowerCase ext) "sh"); [congruence|].
    now destruct (String.eqb (toLowerCase ext) "txt").
Qed.

Lemma fileLine_extension_witness :
  Builtins.fileLine "/" (snd (createFile 0%Z fs0 "/SH" "")) "SH" =
  "SH: Bourne-Again shell script".
Proof.
  apply (proj1 (proj2 (fileLine_extension "/" "SH" "" "SH"
                         (snd (createFile 0%Z fs0 "/SH" ""))
                         (newFile "SH" "" 0%Z)
                         ltac:(vm_compute; reflexivity) ltac:(reflexivity)
                         ltac:(left; reflexivity) ltac:(reflexivity)))).
  reflexivity.
Defined.

End CommandExtra.

(** ** Further properties of touch, mkdir, wc, head and tail *)

Module CountFacts.
Import Js JsText JsFacts TextFacts.

Lemma first_piece (s : string) :
  startsWord s = true ->
  exists h t, splitWsAux true s = h :: t /\ h <> "".
Proof.
  destruct s as [|a s]; [discriminate|]. simpl. intros Ha.
  apply negb_true_iff in Ha. rewrite Ha.
  destruct (splitWsAux false s) as [|h t]; eexists; eexists; split;
    try reflexivity; discriminate.
Qed.

Lemma nonEmptyCount_cons (h : string) (t : list string) :
  h <> "" -> nonEmptyCount (h :: t) = S (nonEmptyCount t).
Proof. destruct h; [congruence | reflexivity]. Qed.

(** The non-empty pieces of a split on white space are the maximal runs of
    other characters. *)
Lemma words_count (s : string) : nonEmptyCount (splitWsAux true s) = countWords s.
Proof.
  induction s as [|a s IH]; [reflexivity|]. cbn [splitWsAux countWords].
  destruct (isWhiteSpace a); [exact IH|].
  rewrite splitWs_false. destruct (startsWord s) eqn:Hs.
  - destruct (first_piece s Hs) as (h & t & Heq & Hh). rewrite Heq in *.
    rewrite nonEmptyCount_cons in IH by assumption.
    rewrite nonEmptyCount_cons by discriminate. exact IH.
  - destruct s as [|b s].
    + reflexivity.
    + rewrite nonEmptyCount_cons by discriminate. now rewrite IH.
Qed.

Lemma words_count_split (s : string) :
  nonEmptyCount (splitWhitespace s) = countWords s.
Proof.
  unfold splitWhitespace. rewrite splitWs_false.
  destruct (startsWord s); [apply words_count|].
  destruct s; [reflexivity|]. apply (words_count (String a s)).
Qed.

End CountFacts.

Section MoreCommands.
Import Js JsText JsFacts StoreFacts TextFacts CommandFacts CountFacts.

Context (H : Handlers) (now : Date).

(** X20: [touch] and [mkdir] with one operand fail exactly when the parent
    path of the resolved operand does not look up to a directory node; they
    then return exit code 1 with their error and the filesystem they were
    given.  (The [File exists] of the mkdir message never applies: see C9.) *)
Theorem touch_mkdir_exit_code (p currentDir : string) (fs : FileSystem) :
  let parentOk := directoryAt fs (parentPathOf (resolvePath currentDir p)) in
  let touched := executeCommand H now "touch" [p] currentDir fs in
  let made := executeCommand H now "mkdir" [p] currentDir fs in
  exitCode (fst touched) = (if parentOk then 0 else 1) /\
  exitCode (fst made) = (if parentOk then 0 else 1) /\
  (parentOk = false ->
   touched = (mkResult "" (Some ("touch: cannot touch '" ++ p ++
                                 "': No such file or directory")) 1, fs) /\
   made = (mkResult "" (Some ("mkdir: cannot create directory '" ++ p ++
                              "': File exists or parent directory doesn't exist")) 1,
           fs)).
Proof.
  intros parentOk touched made. subst touched made.
  unfold executeCommand. simpl. unfold handleTouch, handleMkdir. simpl.
  destruct parentOk eqn:E; subst parentOk.
  - rewrite (createFile_ok _ _ _ _ E), (createDirectory_ok _ _ _ E).
    repeat split; discriminate.
  - rewrite (createFile_fail _ _ _ _ E), (createDirectory_fail _ _ _ E).
    repeat split; reflexivity.
Qed.

(** X21: [mkdir] is not atomic.  With two operands of which the first can be
    created and the second cannot, the result is the error for the second
    operand with exit code 1, and the returned filesystem is the one in which
    the first directory has been created. *)
Theorem mkdir_partial_effect (a b currentDir : string) (fs : FileSystem) :
  let fs1 := snd (createDirectory now fs (resolvePath currentDir a)) in
  directoryAt fs (parentPathOf (resolvePath currentDir a)) = true ->
  directoryAt fs1 (parentPathOf (resolvePath currentDir b)) = false ->
  executeCommand H now "mkdir" [a; b] currentDir fs =
    (mkResult "" (Some ("mkdir: cannot create directory '" ++ b ++
                        "': File exists or parent directory doesn't exist")) 1,
     fs1) /\
  directoryAt fs1 (resolvePath currentDir a) = true.
Proof.
  intros fs1 Ha Hb. subst fs1.
  unfold executeCommand. simpl. unfold handleMkdir. simpl.
  rewrite (createDirectory_ok _ _ _ Ha) in *. simpl snd in *.
  rewrite (createDirectory_fail _ _ _ Hb). split; [reflexivity|].
  apply (directoryAt_created now fs). now apply createDirectory_ok.
Qed.

End MoreCommands.

Lemma touch_mkdir_exit_code_witness :
  directoryAt fs0 (parentPathOf (resolvePath "/home/user" "nowhere/x")) = false /\
  run "touch" ["nowhere/x"] "/home/user" fs0 =
    (mkResult "" (Some "touch: cannot touch 'nowhere/x': No such file or directory") 1,
     fs0).
Proof.
  split; [vm_compute; reflexivity|].
  apply (proj2 (proj2 (touch_mkdir_exit_code plainHandlers 0%Z "nowhere/x"
                         "/home/user" fs0))).
  vm_compute. reflexivity.
Defined.

Lemma mkdir_partial_effect_witness :
  directoryAt fs0 (resolvePath "/home/user" "new") = false /\
  directoryAt (snd (run "mkdir" ["new"; "nowhere/x"] "/home/user" fs0))
              (resolvePath "/home/user" "new") = true /\
  exitCode (fst (run "mkdir" ["new"; "nowhere/x"] "/home/user" fs0)) = 1.
Proof.
  split; [vm_compute; reflexivity|].
  destruct (mkdir_partial_effect plainHandlers 0%Z "new" "nowhere/x" "/home/user" fs0
              ltac:(vm_compute; reflexivity) ltac:(vm_compute; reflexivity))
    as [Hrun Hdir].
  unfold run. rewrite Hrun. split; [exact Hdir | reflexivity].
Defined.

Section Counting.
Import Js JsText JsFacts StoreFacts TextFacts CommandFacts CountFacts.

(** X22: for an operand that resolves to a file node, [wc] reports the
    number of newline characters plus one as the line count (so 1 for an
    empty file), the number of maximal runs of characters other than white
    space as the word count, and the length of the content as the character
    count, right-aligned in fields of 8, 7 and 7 characters and followed by
    the operand as typed. *)
Theorem handleWc_counts (filePath : string) (rest : list string)
    (currentDir : string) (fs : FileSystem) (item : FileSystemItem) :
  getItemAtPath fs (resolvePath currentDir filePath) = Some item ->
  type item = file ->
  Builtins.handleWc (filePath :: rest) currentDir fs =
  mkResult
    (padStart (numToString (S (countChar (ascii_of_nat 10) (contentOf item)))) 8
     ++ " " ++ padStart (numToString (countWords (contentOf item))) 7
     ++ " " ++ padStart (numToString (String.length (contentOf item))) 7
     ++ " " ++ filePath) None 0.
Proof.
  intros Hitem Htype. unfold Builtins.handleWc. rewrite Hitem, Htype.
  simpl negb. cbv iota. rewrite split_length.
  change (List.length
            (List.filter (fun w => Nat.ltb 0 (String.length w))
                         (splitWhitespace (contentOf item))))
    with (nonEmptyCount (splitWhitespace (contentOf item))).
  now rewrite words_count_split.
Qed.

Lemma handleWc_counts_witness :
  Builtins.handleWc ["hosts"] "/etc" fs0 = mkResult "       3       6      62 hosts" None 0.
Proof.
  rewrite (handleWc_counts "hosts" [] "/etc" fs0
             (default fs0 (getItemAtPath fs0 "/etc/hosts"))
             ltac:(vm_compute; reflexivity) ltac:(reflexivity)).
  vm_compute. reflexivity.
Defined.

Lemma slice_drop_last {A : Type} (l : list A) (n : Z) :
  (0 < n)%Z -> slice l 0 (- n) = firstn (List.length l - Z.to_nat n) l.
Proof.
  intros Hn. unfold slice.
  rewrite (relIndex_nonneg _ 0), relIndex_neg by lia.
  change (Nat.min (Z.to_nat 0) (List.length l)) with 0.
  now rewrite Nat.sub_0_r.
Qed.

Lemma sliceFrom_drop_first {A : Type} (l : list A) (n : Z) :
  (0 < n)%Z -> sliceFrom l n = skipn (Z.to_nat n) l.
Proof.
  intros Hn. unfold sliceFrom, slice.
  rewrite !relIndex_nonneg by lia. rewrite Nat2Z.id, Nat.min_id.
  destruct (Nat.le_ge_cases (Z.to_nat n) (List.length l)) as [Hle|Hge].
  - rewrite Nat.min_l by assumption. apply firstn_all2.
    rewrite length_skipn. lia.
  - rewrite Nat.min_r by assumption.
    rewrite Nat.sub_diag, !skipn_all2 by lia. reflexivity.
Qed.

(** X23: with a negative count the two commands cut from the other end:
    for a token that parses to [-n] with [n] positive, [head] prints all
    lines but the last [n], and [tail] prints all lines but the first [n]. *)
Theorem head_tail_negative (tok filePath currentDir : string) (fs : FileSystem)
    (item : FileSystemItem) (n : Z) :
  parseInt tok = Some (- n)%Z -> (0 < n)%Z ->
  getItemAtPath fs (resolvePath currentDir filePath) = Some item ->
  type item = file ->
  let lines := split (ascii_of_nat 10) (contentOf item) in
  handleHead ["-n"; tok; filePath] currentDir fs =
    okResult (join nl (firstn (List.length lines - Z.to_nat n) lines)) /\
  handleTail ["-n"; tok; filePath] currentDir fs =
    okResult (join nl (skipn (Z.to_nat n) lines)).
Proof.
  intros Hp Hn Hitem Htype lines. unfold handleHead, handleTail.
  rewrite (lineCountArgs_counted _ _ _ Hp) by lia.
  rewrite Hitem, Htype. simpl negb. cbv iota. fold lines.
  rewrite Z.opp_involutive.
  now rewrite slice_drop_last, sliceFrom_drop_first by lia.
Qed.

Lemma head_tail_negative_witness :
  let item := default fs0 (getItemAtPath fs0 "/home/user/documents/readme.txt") in
  let lines := split (ascii_of_nat 10) (contentOf item) in
  handleHead ["-n"; "-2"; "readme.txt"] "/home/user/documents" fs0 =
    okResult (join nl (firstn (List.length lines - 2) lines)) /\
  handleTail ["-n"; "-2"; "readme.txt"] "/home/user/documents" fs0 =
    okResult (join nl (skipn 2 lines)).
Proof.
  intros item lines.
  apply (head_tail_negative "-2" "readme.txt" "/home/user/documents" fs0 item 2%Z);
    [reflexivity | lia | vm_compute; reflexivity | reflexivity].
Defined.

End Counting.

Section HeadTailMore.
Import Js JsText JsFacts StoreFacts.

Context (H : Handlers) (now : Date).

(** X24: for an operand that resolves to a file node and a count token that
    parses to a positive number [n], [head -n] prints the first [n] of the
    newline-split lines of the content and [tail -n] the last [n] (all
    lines when there are fewer), with exit code 0; neither changes the
    filesystem. *)
Theorem head_tail_positive_count (tok filePath currentDir : string)
    (fs : FileSystem) (item : FileSystemItem) (n : Z) :
  parseInt tok = Some n -> (0 < n)%Z ->
  getItemAtPath fs (resolvePath currentDir filePath) = Some item ->
  type item = file ->
  let lines := split (ascii_of_nat 10) (contentOf item) in
  executeCommand H now "head" ["-n"; tok; filePath] currentDir fs =
    (mkResult (join nl (firstn (Z.to_nat n) lines)) None 0, fs) /\
  executeCommand H now "tail" ["-n"; tok; filePath] currentDir fs =
    (mkResult (join nl (skipn (List.length lines - Z.to_nat n) lines)) None 0, fs).
Proof.
  intros Hp Hn Hitem Htype lines.
  unfold executeCommand. simpl String.eqb. cbv iota. cbv zeta.
  unfold handleHead, handleTail.
  rewrite (lineCountArgs_counted _ _ _ Hp) by lia.
  rewrite Hitem, Htype. simpl negb. cbv iota. fold lines.
  now rewrite slice_first, sliceFrom_last by lia.
Qed.

End HeadTailMore.

Lemma head_tail_positive_count_witness :
  let item := default fs0 (getItemAtPath fs0 "/home/user/documents/project.md") in
  let lines := Js.split (ascii_of_nat 10) (contentOf item) in
  run "head" ["-n"; " 3"; "project.md"] "/home/user/documents" fs0 =
    (mkResult (Js.join nl (firstn 3 lines)) None 0, fs0) /\
  run "tail" ["-n"; " 3"; "project.md"] "/home/user/documents" fs0 =
    (mkResult (Js.join nl (skipn (List.length lines - 3) lines)) None 0, fs0).
Proof.
  intros item lines.
  apply (head_tail_positive_count plainHandlers 0%Z " 3" "project.md"
           "/home/user/documents" fs0 item 3%Z);
    [reflexivity | lia | vm_compute; reflexivity | reflexivity].
Defined.

(** ** Properties of the terminal component *)

Module TerminalFacts.
Import Js JsText JsFacts TextFacts Terminal.

(** What a submitted line that is not blank does to the component. *)
Lemma submit_shape (H : Handlers) (genId : nat -> string) (now : Date)
    (c : Component) :
  isBlank (currentInput c) = false ->
  exists st',
    executeCurrentCommand H genId now c = mkComponent st' "" [] (-1) (-1) /\
    history st' = (history (state c) ++ [currentInput c])%list /\
    fileSystem st' =
      snd (executeCommand H now (fst (parseCommand (currentInput c)))
             (snd (parseCommand (currentInput c)))
             (currentDirectory (state c)) (fileSystem (state c))).
Proof.
  intros Hb. unfold executeCurrentCommand.
  assert (Ht : truthy (trim (currentInput c)) = true).
  { apply truthy_true. intros He. apply trim_blank in He. congruence. }
  rewrite Ht. simpl negb. cbv iota.
  destruct (parseCommand (currentInput c)) as [command args]. cbn [fst snd].
  destruct (executeCommand H now command args (currentDirectory (state c))
              (fileSystem (state c))) as [result fs'].
  eexists. split; [reflexivity|]. cbn [snd].
  destruct (String.eqb (output result) "__CLEAR__"); [now split|].
  destruct (startsWith (output result) "__CD__"); now split.
Qed.

Lemma submit_blank (H : Handlers) (genId : nat -> string) (now : Date)
    (c : Component) :
  isBlank (currentInput c) = true -> executeCurrentCommand H genId now c = c.
Proof.
  intros Hb. unfold executeCurrentCommand.
  apply trim_blank in Hb. now rewrite Hb.
Qed.

(** One press of ArrowUp while no suggestion is shown. *)
Lemma arrowUp_history (H : Handlers) (genId : nat -> string) (now : Date)
    (ctrl : bool) (c : Component) :
  suggestions c = [] -> history (state c) <> [] ->
  let len := Z.of_nat (List.length (history (state c))) in
  let idx := if (historyIndex c =? -1)%Z then (len - 1)%Z
             else Z.max 0 (historyIndex c - 1) in
  handleKeyDown H genId now "ArrowUp" ctrl c =
  mkComponent (state c)
    (strOr (if (idx <? 0)%Z then None
            else nth_error (history (state c)) (Z.to_nat idx)) "")
    [] (selectedSuggestion c) idx.
Proof.
  intros Hs Hh len idx. unfold handleKeyDown. simpl String.eqb. cbv iota.
  rewrite Hs. simpl List.length. simpl Z.ltb. cbv iota.
  destruct (history (state c)) as [|x l] eqn:E; [congruence|].
  reflexivity.
Qed.

Lemma isWord_suggestion (s : string) : In s suggestionCommands -> isWord s = true.
Proof.
  intros Hin. unfold suggestionCommands in Hin. simpl in Hin.
  repeat (destruct Hin as [Heq|Hin]; [subst s; reflexivity|]).
  contradiction.
Qed.

End TerminalFacts.

Section TerminalExtra.
Import Js JsText JsFacts StoreFacts TextFacts Terminal TerminalFacts.

Context (H : Handlers) (genId : nat -> string) (now : Date).

(** X25: the history cursor stays between -1 and the last index of the
    history, and the selected suggestion is -1 or an index into the list of
    suggestions: this holds initially and is kept by every key press and
    every change of the input. *)
Theorem cursors_stay_in_range (key value : string) (ctrlKey : bool)
    (c : Component) :
  cursorsInRange (initialComponent genId now) /\
  (cursorsInRange c ->
   cursorsInRange (handleKeyDown H genId now key ctrlKey c) /\
   cursorsInRange (handleInputChange value c)).
Proof.
  split; [split; [simpl; lia | now left]|].
  intros [Hh Hsel]. split.
  - unfold handleKeyDown.
    destruct (String.eqb key "Enter").
    { destruct (isBlank (currentInput c)) eqn:Hb.
      - rewrite submit_blank by assumption. now split.
      - destruct (submit_shape H genId now c Hb) as (st' & -> & Hhist & _).
        split; [|now left]. simpl. rewrite Hhist, List.length_app. simpl. lia. }
    destruct (String.eqb key "Tab").
    { unfold handleTabCompletion.
      destruct (Nat.eqb (List.length (suggestions c)) 0); [now split|].
      destruct (Nat.eqb (List.length (suggestions c)) 1);
        [split; [exact Hh | now left]|].
      destruct (0 <=? selectedSuggestion c)%Z;
        [split; [exact Hh | now left] | now split]. }
    destruct (String.eqb key "ArrowUp").
    { destruct (0 <? Z.of_nat (List.length (suggestions c)))%Z eqn:Hlen.
      - apply Z.ltb_lt in Hlen. split; [exact Hh|]. right. simpl.
        destruct (selectedSuggestion c <=? 0)%Z eqn:E;
          [|apply Z.leb_gt in E]; lia.
      - destruct (Nat.ltb 0 (List.length (history (state c)))) eqn:Hl;
          [|now split].
        apply Nat.ltb_lt in Hl. split; [|exact Hsel]. simpl.
        destruct (historyIndex c =? -1)%Z; lia. }
    destruct (String.eqb key "ArrowDown").
    { destruct (0 <? Z.of_nat (List.length (suggestions c)))%Z eqn:Hlen.
      - apply Z.ltb_lt in Hlen. split; [exact Hh|]. right. simpl.
        destruct (Z.of_nat (List.length (suggestions c)) - 1 <=?
                  selectedSuggestion c)%Z eqn:E;
          [|apply Z.leb_gt in E]; lia.
      - destruct (historyIndex c =? -1)%Z eqn:Hi; simpl negb; cbv iota;
          [now split|].
        destruct (Z.of_nat (List.length (history (state c))) <=?
                  historyIndex c + 1)%Z eqn:E.
        + split; [simpl; lia | exact Hsel].
        + apply Z.leb_gt in E. split; [simpl; lia | exact Hsel]. }
    destruct (String.eqb key "ArrowLeft" || String.eqb key "ArrowRight");
      [now split|].
    destruct (String.eqb key "Escape"); [split; [simpl; lia | now left]|].
    destruct (String.eqb key "c").
    { destruct ctrlKey; [split; [simpl; lia | now left] | now split]. }
    destruct (String.eqb key "l");
      [destruct ctrlKey; now split | now split].
  - unfold handleInputChange. destruct (parseCommand value) as [command args].
    destruct (truthy command && negb (includes value " "));
      (split; [simpl; lia | now left]).
Qed.

(** X26: with no suggestion shown and a history that is not empty, pressing
    ArrowUp [n] times from the rest position moves the history cursor to the
    [n]-th entry from the end and stops at the oldest entry; the input is
    replaced by that entry and nothing else changes. *)
Theorem arrowUp_walks_back (ctrlKey : bool) (c : Component) (n : nat) :
  suggestions c = [] -> history (state c) <> [] -> historyIndex c = (-1)%Z ->
  let len := Z.of_nat (List.length (history (state c))) in
  let idx := Z.max 0 (len - Z.of_nat (S n)) in
  Nat.iter (S n) (handleKeyDown H genId now "ArrowUp" ctrlKey) c =
  mkComponent (state c)
    (strOr (nth_error (history (state c)) (Z.to_nat idx)) "")
    [] (selectedSuggestion c) idx.
Proof.
  intros Hs Hh Hi len idx. subst idx.
  assert (Hlen : (0 < len)%Z).
  { subst len. destruct (history (state c)); [congruence | simpl; lia]. }
  induction n as [|n IH].
  - simpl Nat.iter. rewrite arrowUp_history by assumption. rewrite Hi.
    simpl Z.eqb. cbv iota. fold len.
    replace (Z.max 0 (len - Z.of_nat 1)) with (len - 1)%Z by lia.
    destruct (len - 1 <? 0)%Z eqn:E; [apply Z.ltb_lt in E; lia | reflexivity].
  - change (Nat.iter (S (S n)) ?f c) with (f (Nat.iter (S n) f c)).
    rewrite IH.
    rewrite arrowUp_history by (simpl; first [reflexivity | assumption]). simpl.
    fold len.
    destruct (Z.max 0 (len - Z.of_nat (S n)) =? -1)%Z eqn:E;
      [apply Z.eqb_eq in E; lia|].
    replace (Z.max 0 (Z.max 0 (len - Z.of_nat (S n)) - 1))
      with (Z.max 0 (len - Z.of_nat (S (S n)))) by lia.
    destruct (Z.max 0 (len - Z.of_nat (S (S n))) <? 0)%Z eqn:E';
      [apply Z.ltb_lt in E'; lia | reflexivity].
Qed.


(** X28: the control strings travel in the output of any command.  A line
    [echo __CD__w], for a word [w], makes [w] the current directory without
    any lookup (so also when nothing exists at [w], or [w] is not absolute)
    and prints no output line; a line [echo __CLEAR__] empties the
    scrollback. *)
Theorem echo_is_a_control_channel (c : Component) (w : string) :
  isWord w = true ->
  (currentInput c = ("echo __CD__" ++ w)%string ->
   let c' := executeCurrentCommand H genId now c in
   currentDirectory (state c') = w /\
   fileSystem (state c') = fileSystem (state c) /\
   outputs (state c') =
     (outputs (state c) ++
      [mkOutput (genId 0) KindCommand
         (formatPrompt (currentDirectory (state c)) ++ currentInput c) now])%list) /\
  (currentInput c = "echo __CLEAR__" ->
   outputs (state (executeCurrentCommand H genId now c)) = []).
Proof.
  intros Hw. split.
  - intros Hin c'. subst c'. unfold executeCurrentCommand. rewrite Hin.
    assert (Hword : isWord ("__CD__" ++ w) = true).
    { apply isWord_inv in Hw as [_ Hf]. unfold isWord.
      change (truthy ("__CD__" ++ w)) with true.
      now rewrite whitespaceFree_app, Hf. }
    assert (Hparse : parseCommand ("echo __CD__" ++ w) = ("echo", ["__CD__" ++ w]%string)).
    { apply (parse_join "echo" ["__CD__" ++ w]%string);
        [reflexivity | now repeat constructor]. }
    assert (Hnb : truthy (trim ("echo __CD__" ++ w)) = true)
      by (apply (parse_nonblank _ _ _ Hparse); discriminate).
    rewrite Hnb, Hparse. simpl negb. cbv iota.
    unfold executeCommand. simpl String.eqb. cbv iota. cbv zeta.
    unfold okResult. cbn [output error].
    change (join " " ["__CD__" ++ w]%string) with ("__CD__" ++ w)%string.
    change (String.eqb ("__CD__" ++ w) "__CLEAR__") with false. cbv iota.
    assert (Hpre : startsWith ("__CD__" ++ w) "__CD__" = true).
    { unfold startsWith. apply prefix_spec. now exists w. }
    rewrite Hpre. cbn [state currentDirectory fileSystem outputs].
    split; [apply (js_substringFrom_suffix "__CD__" w)|]. now split.
  - intros Hin. unfold executeCurrentCommand. rewrite Hin. reflexivity.
Qed.

(** X29: a line [cd p], for a word [p], whose target resolves to a
    directory node makes the resolved path the current directory and leaves
    the filesystem as it is, so the new current directory looks up to that
    directory; when the target resolves to nothing, the current directory
    stays and the error is appended to the scrollback after the echoed
    line. *)
Theorem cd_line_changes_directory (c : Component) (p : string)
    (item : FileSystemItem) :
  isWord p = true -> currentInput c = ("cd " ++ p)%string ->
  let st := state c in
  let resolvedPath := resolvePath (currentDirectory st) p in
  let c' := executeCurrentCommand H genId now c in
  (getItemAtPath (fileSystem st) resolvedPath = Some item ->
   type item = directory ->
   currentDirectory (state c') = resolvedPath /\
   fileSystem (state c') = fileSystem st /\
   getItemAtPath (fileSystem (state c')) (currentDirectory (state c')) = Some item) /\
  (getItemAtPath (fileSystem st) resolvedPath = None ->
   currentDirectory (state c') = currentDirectory st /\
   outputs (state c') =
     (outputs st ++
      [mkOutput (genId 0) KindCommand
         (formatPrompt (currentDirectory st) ++ currentInput c) now;
       mkOutput (genId 1) KindError
         ("bash: cd: " ++ p ++ ": No such file or directory") now])%list).
Proof.
  intros Hw Hin st resolvedPath c'. subst c'.
  assert (Hparse : parseCommand ("cd " ++ p) = ("cd", [p])).
  { apply (parse_join "cd" [p]); [reflexivity | now repeat constructor]. }
  assert (Hnb : truthy (trim ("cd " ++ p)) = true)
    by (apply (parse_nonblank _ _ _ Hparse); discriminate).
  assert (Htarget : strOr (arg [p] 0) "/home/user" = p).
  { simpl. apply isWord_inv in Hw as [Hne _]. apply truthy_true in Hne.
    now rewrite Hne. }
  unfold executeCurrentCommand. rewrite Hin, Hnb, Hparse. simpl negb. cbv iota.
  unfold executeCommand. simpl String.eqb. cbv iota. cbv zeta.
  unfold handleCd. rewrite Htarget. fold st. fold resolvedPath. split.
  - intros Hitem Htype. rewrite Hitem, Htype. simpl negb. cbv iota.
    unfold okResult. cbn [output error].
    change (String.eqb ("__CD__" ++ resolvedPath) "__CLEAR__") with false.
    cbv iota.
    assert (Hpre : startsWith ("__CD__" ++ resolvedPath) "__CD__" = true).
    { unfold startsWith. apply prefix_spec. now exists resolvedPath. }
    assert (Hsub : substringFrom ("__CD__" ++ resolvedPath) 6 = resolvedPath)
      by exact (js_substringFrom_suffix "__CD__" resolvedPath).
    rewrite Hpre. cbn [state currentDirectory fileSystem].
    rewrite Hsub. now repeat split.
  - intros Hitem. rewrite Hitem. unfold errResult. cbn [output error].
    simpl String.eqb. cbv iota.
    change (startsWith "" "__CD__") with false. cbv iota.
    change (truthy "") with false. cbv iota.
    assert (Hmsg : truthy ("bash: cd: " ++ p ++ ": No such file or directory") = true)
      by reflexivity.
    rewrite Hmsg. cbn [state currentDirectory outputs]. split; [reflexivity|].
    now rewrite <- List.app_assoc.
Qed.

(** X30: when the suggestions shown come from [getCommandSuggestions] and
    there is exactly one, Tab replaces the input by that name and a space;
    the completed line parses to that name with no argument, and the name is
    a case label of the dispatcher. *)
Theorem tab_completes_to_a_command (c : Component) (typed s : string) :
  suggestions c = getCommandSuggestions typed -> suggestions c = [s] ->
  let c' := handleTabCompletion c in
  currentInput c' = (s ++ " ")%string /\
  parseCommand (currentInput c') = (s, []) /\
  In s dispatchTable /\ suggestions c' = [].
Proof.
  intros Hfrom Hone c'. subst c'. unfold handleTabCompletion. rewrite Hone.
  simpl. assert (Hin : In s (getCommandSuggestions typed)).
  { rewrite <- Hfrom, Hone. now left. }
  apply suggestion_in_list in Hin as [Hin _].
  split; [reflexivity|]. split; [apply parse_word_space, isWord_suggestion, Hin|].
  split; [now apply suggestionCommands_known | reflexivity].
Qed.

End TerminalExtra.

(** The invariant across an ArrowUp that moves the selected suggestion from
    the first to the last of two, and across one that moves the history
    cursor from the rest position to the last of two entries. *)
Lemma cursors_stay_in_range_witness :
  let withSuggestions :=
    Terminal.mkComponent (Terminal.mkState "/" ["ls"; "pwd"] (-1) [] fs0)
      "c" ["cd"; "cat"] 0 (-1) in
  let atRest :=
    Terminal.mkComponent (Terminal.mkState "/" ["ls"; "pwd"] (-1) [] fs0)
      "" [] (-1) (-1) in
  let up := Terminal.handleKeyDown plainHandlers (fun _ => "id") 0%Z "ArrowUp" false in
  cursorsInRange withSuggestions /\
  Terminal.selectedSuggestion (up withSuggestions) = 1%Z /\
  cursorsInRange (up withSuggestions) /\
  cursorsInRange atRest /\
  Terminal.historyIndex (up atRest) = 1%Z /\
  cursorsInRange (up atRest).
Proof.
  intros withSuggestions atRest up.
  assert (H1 : cursorsInRange withSuggestions)
    by (split; [simpl; lia | right; simpl; lia]).
  assert (H2 : cursorsInRange atRest)
    by (split; [simpl; lia | left; reflexivity]).
  split; [exact H1|]. split; [reflexivity|].
  split; [exact (proj1 (proj2 (cursors_stay_in_range plainHandlers (fun _ => "id")
                                 0%Z "ArrowUp" "" false withSuggestions) H1))|].
  split; [exact H2|]. split; [reflexivity|].
  exact (proj1 (proj2 (cursors_stay_in_range plainHandlers (fun _ => "id")
                         0%Z "ArrowUp" "" false atRest) H2)).
Defined.

Lemma arrowUp_walks_back_witness :
  Nat.iter 5 (Terminal.handleKeyDown plainHandlers (fun _ => "id") 0%Z "ArrowUp" false)
    (Terminal.mkComponent
       (Terminal.mkState "/" ["ls"; "pwd"; "date"] (-1) [] fs0) "" [] (-1) (-1)) =
  Terminal.mkComponent
    (Terminal.mkState "/" ["ls"; "pwd"; "date"] (-1) [] fs0) "ls" [] (-1) 0.
Proof.
  apply (arrowUp_walks_back plainHandlers (fun _ => "id") 0%Z false
           (Terminal.mkComponent
              (Terminal.mkState "/" ["ls"; "pwd"; "date"] (-1) [] fs0)
              "" [] (-1) (-1)) 4);
    [reflexivity | discriminate | reflexivity].
Defined.


Lemma echo_is_a_control_channel_witness :
  getItemAtPath fs0 "nowhere" = None /\
  Terminal.currentDirectory
    (Terminal.state
       (Terminal.executeCurrentCommand plainHandlers (fun _ => "id") 0%Z
          (Terminal.mkComponent (Terminal.mkState "/home/user" [] (-1) [] fs0)
             "echo __CD__nowhere" [] (-1) (-1)))) = "nowhere".
Proof.
  split; [vm_compute; reflexivity|].
  apply (proj1 (echo_is_a_control_channel plainHandlers (fun _ => "id") 0%Z
                  (Terminal.mkComponent
                     (Terminal.mkState "/home/user" [] (-1) [] fs0)
                     "echo __CD__nowhere" [] (-1) (-1))
                  "nowhere" ltac:(reflexivity))).
  reflexivity.
Defined.

Lemma cd_line_changes_directory_witness :
  Terminal.currentDirectory
    (Terminal.state
       (Terminal.executeCurrentCommand plainHandlers (fun _ => "id") 0%Z
          (Terminal.mkComponent (Terminal.mkState "/home/user" [] (-1) [] fs0)
             "cd ../../etc" [] (-1) (-1)))) = "/etc".
Proof.
  apply (proj1 (cd_line_changes_directory plainHandlers (fun _ => "id") 0%Z
                  (Terminal.mkComponent
                     (Terminal.mkState "/home/user" [] (-1) [] fs0)
                     "cd ../../etc" [] (-1) (-1))
                  "../../etc" (default fs0 (getItemAtPath fs0 "/etc"))
                  ltac:(reflexivity) ltac:(reflexivity)));
    [vm_compute; reflexivity | reflexivity].
Defined.

Lemma tab_completes_to_a_command_witness :
  getCommandSuggestions "WHO" = ["whoami"] /\
  parseCommand
    (Terminal.currentInput
       (Terminal.handleTabCompletion
          (Terminal.mkComponent (Terminal.mkState "/" [] (-1) [] fs0)
             "WHO" ["whoami"] (-1) (-1)))) = ("whoami", []).
Proof.
  split; [reflexivity|].
  apply (tab_completes_to_a_command
           (Terminal.mkComponent (Terminal.mkState "/" [] (-1) [] fs0)
              "WHO" ["whoami"] (-1) (-1)) "WHO" "whoami");
    reflexivity.
Defined.
